(** * Qdrant management facade and its HTTP handlers

    A shallow embedding of [app/services/qdrant_service.py] (the class
    [QdrantService]) and of the Qdrant handlers of [app/api/endpoints.py].

    The vector-database SDK ([qdrant_client]), the clock ([time.time]) and
    the configuration ([app.core.config]) are not part of the repository:
    they are taken as parameters (records [SDK] and [QdrantConfig]).  Every
    SDK call receives the state of the outside world and returns either a
    value or a raised exception, together with the next state of the world.

    Conventions of the model:
    - Python dictionaries are association lists in insertion order;
    - Python values that end up in dictionaries are the type [pyval];
    - floats ([time.time()] readings, the latency) are binary64 numbers,
      the primitive floats of the prover, with their IEEE operations;
    - strings are the UTF-8 bytes of Python's [str]; [str.upper] is
      written out on ASCII characters and takes Python's case mapping of
      non-ASCII characters as a parameter;
    - exceptions are the instances of Python's [Exception] (what the
      [except Exception] clauses of the source catch);
    - [logger] calls have no effect on the result and are left out. *)

From Stdlib Require Import ZArith List String Ascii Bool Lia.
From Stdlib Require Import PrimFloat SpecFloat.
From Stdlib Require FloatOps.
Import ListNotations.
#[local] Set Warnings "-inexact-float".
Open Scope string_scope.
Open Scope Z_scope.

(** ** Python values and dictionaries *)

#[warnings="-register-all"]
Inductive pyval : Type :=
| VNone
| VBool (b : bool)
| VInt (n : Z)
| VFloat (x : float)
| VStr (s : string)
| VList (l : list pyval)
| VDict (d : list (string * pyval)).

Definition dict : Type := list (string * pyval).

(** [d.get(k)] / [d[k]]: the first binding of [k]. *)
Fixpoint dict_get (k : string) (d : dict) : option pyval :=
  match d with
  | [] => None
  | (k', v) :: d' => if String.eqb k k' then Some v else dict_get k d'
  end.

(** [d[k] = v]: an existing key keeps its position, a new key goes last. *)
Fixpoint dict_set (k : string) (v : pyval) (d : dict) : dict :=
  match d with
  | [] => [(k, v)]
  | (k', v') :: d' =>
      if String.eqb k k' then (k', v) :: d' else (k', v') :: dict_set k v d'
  end.

(** [d.update(u)]: the bindings of [u] are stored one after the other. *)
Definition dict_update (d u : dict) : dict :=
  fold_left (fun acc kv => dict_set (fst kv) (snd kv) acc) u d.

(** [d.get(k, default)] *)
Definition dict_get_default (k : string) (default : pyval) (d : dict) : pyval :=
  match dict_get k d with
  | Some v => v
  | None => default
  end.

(** ** Strings *)

(** [str.upper] on one ASCII character: the letters a..z are shifted to
    A..Z, the other characters are kept. *)
Definition upper_ascii (c : ascii) : ascii :=
  let n := nat_of_ascii c in
  if (97 <=? n)%nat && (n <=? 122)%nat then ascii_of_nat (n - 32) else c.

(** A byte below 128 is an ASCII character; in UTF-8 every byte of a
    non-ASCII character is 128 or more. *)
Definition is_ascii (c : ascii) : bool := (nat_of_ascii c <? 128)%nat.

(** [str.upper] maps each character on its own.  [non_ascii] is Python's
    case mapping of a run of non-ASCII characters (which may give ASCII
    letters: the dotless i gives I); it is applied to each maximal run of
    bytes from 128 on, [run] being the run read so far. *)
Definition flush (non_ascii : string -> string) (run : string) : string :=
  match run with
  | EmptyString => EmptyString
  | _ => non_ascii run
  end.

Fixpoint upper_from (non_ascii : string -> string) (run s : string) : string :=
  match s with
  | EmptyString => flush non_ascii run
  | String c s' =>
      if is_ascii c
      then flush non_ascii run
           ++ String (upper_ascii c) (upper_from non_ascii EmptyString s')
      else upper_from non_ascii (run ++ String c EmptyString) s'
  end.

Definition str_upper (non_ascii : string -> string) (s : string) : string :=
  upper_from non_ascii EmptyString s.

(** ** Exceptions *)

(** The instances of [Exception] the handlers of the source tell apart:
    [qdrant_client.http.exceptions.UnexpectedResponse], the built-in
    [ConnectionError] (with its subclasses), and every other class.  Each
    carries the text [str(e)] returns. *)
Inductive Exception : Type :=
| UnexpectedResponse (msg : string)
| ConnectionError (msg : string)
| OtherException (cls : string) (msg : string).

Definition str (e : Exception) : string :=
  match e with
  | UnexpectedResponse msg => msg
  | ConnectionError msg => msg
  | OtherException _ msg => msg
  end.

Definition AttributeError (msg : string) : Exception :=
  OtherException "AttributeError" msg.

Definition TypeError (msg : string) : Exception :=
  OtherException "TypeError" msg.

(** What a handler of [endpoints.py] can raise: FastAPI's [HTTPException],
    which the framework turns into a response with that status code, or
    any other exception. *)
Inductive Raised : Type :=
| HTTPException (status_code : Z) (detail : pyval)
| Uncaught (e : Exception).

(** ** Results and the state-and-exception monad *)

Inductive result (E A : Type) : Type :=
| Ok (a : A)
| Raise (e : E).
Arguments Ok {E A} a.
Arguments Raise {E A} e.

(** ** The SDK objects *)

(** A client object, known by its identity. *)
Definition Client : Type := nat.

(** Optional attribute of an SDK object: [getattr(o, name, default)] gives
    the attribute when the object has it and [default] otherwise. *)
Definition getattr_default (a : option pyval) (default : pyval) : pyval :=
  match a with
  | Some v => v
  | None => default
  end.

(** An entry of the listing ([CollectionDescription]). *)
Record CollectionDescription : Type := {
  name : string;
  vectors_count : option pyval;
  points_count : option pyval
}.

(** The answer of [client.get_collections()]; [collections] is [None] when
    the object has no such attribute. *)
Record CollectionsResponse : Type := {
  collections : option (list CollectionDescription)
}.

(** [collection_info.config.params.vector] *)
Record VectorConfig : Type := {
  size : option pyval;
  distance : option pyval
}.

(** [collection_info.config]; [params_vector] is what evaluating the
    attribute chain [.params.vector] on it gives: the object, or the
    exception raised when an attribute of the chain is missing. *)
Record CollectionConfig : Type := {
  params_vector : result Exception VectorConfig
}.

(** The answer of [client.get_collection(name)]. *)
Record CollectionInfo : Type := {
  info_vectors_count : option pyval;
  info_points_count : option pyval;
  config : option CollectionConfig;
  status : option pyval
}.

(** [models.VectorParams(size=..., distance=...)] *)
Record VectorParams : Type := {
  vp_size : Z;
  vp_distance : string
}.

(** The SDK, the clock and the world they talk to, with what the model
    leaves open of Python itself.  [Distance NAME] is
    [getattr(models.Distance, NAME)]: the enum member of that name, if any;
    [upper_non_ascii] is the case mapping [str.upper] applies to a run of
    non-ASCII characters. *)
Record SDK (W : Type) : Type := {
  QdrantClient : pyval -> W -> result Exception Client * W;
  get_collections : Client -> W -> result Exception CollectionsResponse * W;
  get_collection : Client -> string -> W -> result Exception CollectionInfo * W;
  sdk_create_collection :
    Client -> string -> VectorParams -> W -> result Exception unit * W;
  sdk_close : Client -> W -> result Exception unit * W;
  Distance : string -> option string;
  time : W -> float * W;
  upper_non_ascii : string -> string
}.
Arguments QdrantClient {W}.
Arguments get_collections {W}.
Arguments get_collection {W}.
Arguments sdk_create_collection {W}.
Arguments sdk_close {W}.
Arguments Distance {W}.
Arguments time {W}.
Arguments upper_non_ascii {W}.

(** [app.core.config.QdrantConfig] *)
Record QdrantConfig : Type := {
  get_connection_string : string;
  get_connection_params : pyval
}.

(** The fields of a [QdrantService] instance. *)
Record QdrantService : Type := {
  _client : option Client;
  _connection_params : pyval
}.

(** [QdrantService.__init__] *)
Definition __init__ (cfg : QdrantConfig) : QdrantService :=
  {| _client := None; _connection_params := get_connection_params cfg |}.

(** ** The state-and-exception monad

    A computation takes the state (the service instance and the world) and
    gives a value or a raised exception, with the next state. *)

Definition M (S E A : Type) : Type := S -> result E A * S.

Definition ret {S E A} (a : A) : M S E A := fun s => (Ok a, s).

Definition raise {S E A} (e : E) : M S E A := fun s => (Raise e, s).

Definition bind {S E A B} (m : M S E A) (k : A -> M S E B) : M S E B :=
  fun s =>
    match m s with
    | (Ok a, s') => k a s'
    | (Raise e, s') => (Raise e, s')
    end.

(** [try: body / except ... as e: handler e] *)
Definition try_except {S E E' A} (body : M S E A) (handler : E -> M S E' A)
  : M S E' A :=
  fun s =>
    match body s with
    | (Ok a, s') => (Ok a, s')
    | (Raise e, s') => handler e s'
    end.

(** A pure step that may raise. *)
Definition lift {S E A} (r : result E A) : M S E A := fun s => (r, s).

Declare Scope py_scope.
Delimit Scope py_scope with py.
Notation "x <- m ;; k" := (bind m (fun x => k))
  (at level 61, m at next level, right associativity) : py_scope.
Notation "m ;;; k" := (bind m (fun _ => k))
  (at level 61, right associativity) : py_scope.
Open Scope py_scope.

(** ** Arithmetic of [sum] *)

Definition type_name (v : pyval) : string :=
  match v with
  | VNone => "NoneType"
  | VBool _ => "bool"
  | VInt _ => "int"
  | VFloat _ => "float"
  | VStr _ => "str"
  | VList _ => "list"
  | VDict _ => "dict"
  end.

Definition unsupported_operand (a b : pyval) : Exception :=
  TypeError ("unsupported operand type(s) for +: '" ++ type_name a
             ++ "' and '" ++ type_name b ++ "'").

(** [float(n)] for an integer: the nearest binary64 number, ties to
    even; [OverflowError] when that is out of range. *)
Definition float_of_int (n : Z) : result Exception float :=
  let x := FloatOps.SF2Prim
             (binary_normalize FloatOps.prec FloatOps.emax n 0 false) in
  if is_infinity x
  then Raise (OtherException "OverflowError" "int too large to convert to float")
  else Ok x.

(** [a + b] for a numeric accumulator [a]; an integer added to a float is
    converted first. *)
Definition py_add (a b : pyval) : result Exception pyval :=
  match a, b with
  | VInt x, VInt y => Ok (VInt (x + y))
  | VInt x, VBool y => Ok (VInt (x + Z.b2z y))
  | VInt x, VFloat y =>
      match float_of_int x with
      | Ok x' => Ok (VFloat (x' + y)%float)
      | Raise e => Raise e
      end
  | VFloat x, VInt y =>
      match float_of_int y with
      | Ok y' => Ok (VFloat (x + y')%float)
      | Raise e => Raise e
      end
  | VFloat x, VBool y =>
      match float_of_int (Z.b2z y) with
      | Ok y' => Ok (VFloat (x + y')%float)
      | Raise e => Raise e
      end
  | VFloat x, VFloat y => Ok (VFloat (x + y)%float)
  | _, _ => Raise (unsupported_operand a b)
  end.

Fixpoint py_sum_from (acc : pyval) (l : list pyval) : result Exception pyval :=
  match l with
  | [] => Ok acc
  | v :: l' =>
      match py_add acc v with
      | Ok acc' => py_sum_from acc' l'
      | Raise e => Raise e
      end
  end.

(** [sum(l)]: starts from the integer 0. *)
Definition py_sum (l : list pyval) : result Exception pyval :=
  py_sum_from (VInt 0) l.

(** ** Rounding *)

(** [n / d] rounded to the nearest integer, ties to the even one, for
    [n >= 0] and [d > 0]. *)
Definition div_half_even (n d : Z) : Z :=
  let q := n / d in
  match Z.compare (2 * (n mod d)) d with
  | Lt => q
  | Gt => q + 1
  | Eq => if Z.even q then q else q + 1
  end.

(** [round(x, 2)] on a float, as CPython computes it: the exact value of
    [x] is rounded to two decimals, ties to even, and the decimal
    [k / 100] found is converted back to the nearest binary64 number, with
    the sign of [x].  Zeros, infinities and NaN round to themselves, and so
    does a number with no fractional bits. *)
Definition round2 (x : float) : float :=
  match FloatOps.Prim2SF x with
  | S754_finite sign m (Zneg e) =>
      match div_half_even (Zpos m * 100) (2 ^ Zpos e) with
      | Zpos k =>
          FloatOps.SF2Prim
            (SFdiv FloatOps.prec FloatOps.emax
               (S754_finite sign k 0) (S754_finite false 100 0))
      | _ => FloatOps.SF2Prim (S754_zero sign)
      end
  | _ => x
  end.

(** ** The facade: [QdrantService] *)

Section Facade.

Context {W : Type} (sdk : SDK W) (cfg : QdrantConfig).

(** The state a method runs in: the instance [self] and the world. *)
Definition St : Type := (QdrantService * W)%type.

(** Reading [self], storing [self._client], calling the SDK, reading the clock. *)
Definition get_self {E} : M St E QdrantService := fun s => (Ok (fst s), s).

Definition set_client {E} (c : option Client) : M St E unit :=
  fun s =>
    (Ok tt, ({| _client := c; _connection_params := _connection_params (fst s) |},
             snd s)).

Definition call {A} (f : W -> result Exception A * W) : M St Exception A :=
  fun s => let (r, w') := f (snd s) in (r, (fst s, w')).

Definition time_time : M St Exception float :=
  fun s => let (t, w') := time sdk (snd s) in (Ok t, (fst s, w')).

(** [QdrantService.get_client]: the client is built when [self._client] is
    [None]; a failure of the constructor is logged and raised again. *)
Definition get_client : M St Exception Client :=
  self <- get_self ;;
  match _client self with
  | None =>
      c <- call (QdrantClient sdk (_connection_params self)) ;;
      set_client (Some c) ;;;
      ret c
  | Some c => ret c
  end.

(** The entry of [check_connection] for one listed collection. *)
Definition collection_entry (collection : CollectionDescription) : dict :=
  [ ("name", VStr (name collection));
    ("vectors_count", getattr_default (vectors_count collection) (VInt 0));
    ("points_count", getattr_default (points_count collection) (VInt 0)) ].

(** The three [except] clauses of [check_connection]. *)
Definition error_msg (e : Exception) : string :=
  match e with
  | UnexpectedResponse _ => "Qdrant server error: " ++ str e
  | ConnectionError _ => "Connection failed: " ++ str e
  | OtherException _ _ => "Unexpected error: " ++ str e
  end.

(** The dictionary [check_connection] starts from. *)
Definition initial_result : dict :=
  [ ("status", VStr "disconnected");
    ("connection_string", VStr (get_connection_string cfg));
    ("error", VNone);
    ("server_info", VNone);
    ("collections", VList []);
    ("response_time_ms", VNone) ].

(** The [try] block of [check_connection], up to [result.update].  The
    argument of [update] is evaluated before [result] is changed, and
    nothing after the update raises: when an [except] clause runs, [result]
    is still [initial_result]. *)
Definition check_connection_try : M St Exception dict :=
  start_time <- time_time ;;
  client <- get_client ;;
  server_info <- call (get_collections sdk client) ;;
  end_time <- time_time ;;
  let response_time := ((end_time - start_time) * 1000)%float in
  let collections :=
    match collections server_info with
    | Some cs => map collection_entry cs
    | None => []
    end in
  total_vectors <-
    lift (py_sum (map (dict_get_default "vectors_count" (VInt 0)) collections)) ;;
  total_points <-
    lift (py_sum (map (dict_get_default "points_count" (VInt 0)) collections)) ;;
  ret (dict_update initial_result
         [ ("status", VStr "connected");
           ("server_info",
            VDict [ ("collections_count", VInt (Z.of_nat (List.length collections)));
                    ("total_vectors", total_vectors);
                    ("total_points", total_points) ]);
           ("collections", VList (map VDict collections));
           ("response_time_ms", VFloat (round2 response_time)) ]).

(** [QdrantService.check_connection] *)
Definition check_connection : M St Exception dict :=
  try_except check_connection_try
    (fun e => ret (dict_set "error" (VStr (error_msg e)) initial_result)).

(** The dictionary literal [info] built from the answer of
    [client.get_collection]; its entries are evaluated in order, the
    condition of the [config] entry before the entry itself. *)
Definition collection_details (collection : CollectionDescription)
    (collection_info : CollectionInfo) : result Exception dict :=
  let finish (config_entry : pyval) : dict :=
    [ ("name", VStr (name collection));
      ("vectors_count",
       getattr_default (info_vectors_count collection_info) (VInt 0));
      ("points_count",
       getattr_default (info_points_count collection_info) (VInt 0));
      ("config", config_entry);
      ("status", getattr_default (status collection_info) (VStr "unknown")) ] in
  match config collection_info with
  | Some c =>
      match params_vector c with
      | Ok vector =>
          Ok (finish (VDict [ ("vector_size", getattr_default (size vector) VNone);
                              ("distance", getattr_default (distance vector) VNone) ]))
      | Raise e => Raise e
      end
  | None => Ok (finish VNone)
  end.

(** The entry a collection degrades to when its detail call fails. *)
Definition error_entry (collection : CollectionDescription) (e : Exception) : dict :=
  [ ("name", VStr (name collection)); ("error", VStr (str e)) ].

(** The [for] loop of [get_collections_info]: [collections_info] is the
    list built so far, each round appends one entry to it. *)
Fixpoint collect_details (client : Client) (cs : list CollectionDescription)
    (collections_info : list dict) : M St Exception (list dict) :=
  match cs with
  | [] => ret collections_info
  | collection :: rest =>
      collections_info' <-
        try_except
          (collection_info <- call (get_collection sdk client (name collection)) ;;
           info <- lift (collection_details collection collection_info) ;;
           ret (collections_info ++ [info])%list)
          (fun e => ret (collections_info ++ [error_entry collection e])%list) ;;
      collect_details client rest collections_info'
  end.

(** [collections_response.collections] *)
Definition collections_attr (r : CollectionsResponse)
  : result Exception (list CollectionDescription) :=
  match collections r with
  | Some cs => Ok cs
  | None =>
      Raise (AttributeError
               "'CollectionsResponse' object has no attribute 'collections'")
  end.

(** [QdrantService.get_collections_info]: the outer [except] clause logs
    and raises the exception again. *)
Definition get_collections_info : M St Exception (list dict) :=
  try_except
    (client <- get_client ;;
     collections_response <- call (get_collections sdk client) ;;
     cs <- lift (collections_attr collections_response) ;;
     collect_details client cs [])
    (fun e => raise e).

(** [s.upper()] *)
Definition upper (s : string) : string := str_upper (upper_non_ascii sdk) s.

(** [getattr(models.Distance, NAME)]; a missing member raises
    [AttributeError] (its text is the name, as [EnumMeta.__getattr__] of
    Python 3.11 and earlier gives it). *)
Definition getattr_Distance (NAME : string) : result Exception string :=
  match Distance sdk NAME with
  | Some member => Ok member
  | None => Raise (AttributeError NAME)
  end.

(** [QdrantService.create_collection] *)
Definition create_collection (collection_name : string) (vector_size : Z)
    (distance : string) : M St Exception dict :=
  try_except
    (client <- get_client ;;
     metric <- lift (getattr_Distance (upper distance)) ;;
     call (sdk_create_collection sdk client collection_name
             {| vp_size := vector_size; vp_distance := metric |}) ;;;
     ret [ ("success", VBool true);
           ("collection_name", VStr collection_name);
           ("vector_size", VInt vector_size);
           ("distance", VStr distance);
           ("message",
            VStr ("Collection '" ++ collection_name ++ "' created successfully")) ])
    (fun e =>
       let error_msg :=
         "Failed to create collection '" ++ collection_name ++ "': " ++ str e in
       ret [ ("success", VBool false); ("error", VStr error_msg) ]).

(** [QdrantService.close] *)
Definition close : M St Exception unit :=
  self <- get_self ;;
  match _client self with
  | Some c =>
      try_except (call (sdk_close sdk c) ;;; set_client None) (fun _ => ret tt)
  | None => ret tt
  end.

(** ** The handlers of [endpoints.py]

    They run on the one global instance [qdrant_service]. *)

(** Facade calls inside a handler: what they raise is not an
    [HTTPException]. *)
Definition facade {A} (m : M St Exception A) : M St Raised A :=
  try_except m (fun e => raise (Uncaught e)).

(** Truth value of a Python value. *)
Definition truthy (v : pyval) : bool :=
  match v with
  | VNone => false
  | VBool b => b
  | VInt n => negb (n =? 0)
  | VFloat x => negb (x =? 0)%float
  | VStr s => negb (String.eqb s "")
  | VList l => match l with [] => false | _ => true end
  | VDict d => match d with [] => false | _ => true end
  end.

(** [d[k]] in a handler: a missing key raises [KeyError]. *)
Definition getitem (d : dict) (k : string) : M St Raised pyval :=
  match dict_get k d with
  | Some v => ret v
  | None => raise (Uncaught (OtherException "KeyError" ("'" ++ k ++ "'")))
  end.

(** [GET /qdrant/collections] *)
Definition get_qdrant_collections : M St Raised dict :=
  try_except
    (collections <- get_collections_info ;;
     self <- get_self ;;
     ret [ ("collections", VList (map VDict collections));
           ("total_collections", VInt (Z.of_nat (List.length collections)));
           ("connection_string", _connection_params self) ])
    (fun e =>
       raise (HTTPException 500 (VStr ("Failed to get collections: " ++ str e)))).

(** The request body of [POST /qdrant/collections]. *)
Record CollectionCreate : Type := {
  cc_name : string;
  cc_vector_size : Z;
  cc_distance : string
}.

(** [POST /qdrant/collections]: an [HTTPException] raised in the [try]
    block is raised again as it is, any other exception becomes a 500. *)
Definition create_qdrant_collection (collection_data : CollectionCreate)
  : M St Raised dict :=
  try_except
    (result <- facade (create_collection (cc_name collection_data)
                         (cc_vector_size collection_data)
                         (cc_distance collection_data)) ;;
     success <- getitem result "success" ;;
     if truthy success then ret result
     else
       detail <- getitem result "error" ;;
       raise (HTTPException 400 detail))
    (fun r =>
       match r with
       | HTTPException status_code detail =>
           raise (HTTPException status_code detail)
       | Uncaught e =>
           raise (HTTPException 500
                    (VStr ("Failed to create collection: " ++ str e)))
       end).

(** [GET /qdrant/status] *)
Definition get_qdrant_status : M St Raised dict :=
  try_except
    (client <- get_client ;;
     collections_response <- call (get_collections sdk client) ;;
     cs <- lift (collections_attr collections_response) ;;
     self <- get_self ;;
     ret [ ("status", VStr "connected");
           ("collections_count", VInt (Z.of_nat (List.length cs)));
           ("connection_string", _connection_params self);
           ("message", VStr "Qdrant is running and accessible") ])
    (fun e =>
       self <- get_self ;;
       ret [ ("status", VStr "disconnected");
             ("error", VStr (str e));
             ("connection_string", _connection_params self);
             ("message", VStr "Qdrant is not accessible") ]).

End Facade.

(** What the framework sends for the outcome of a handler: the returned
    dictionary with status 200, the status and detail of an
    [HTTPException], and a 500 for any other exception. *)
Definition http_response (r : result Raised dict) : Z * pyval :=
  match r with
  | Ok body => (200, VDict body)
  | Raise (HTTPException status_code detail) =>
      (status_code, VDict [ ("detail", detail) ])
  | Raise (Uncaught _) => (500, VStr "Internal Server Error")
  end.

(** ** The operations of the facade, run one after the other *)

(** The four operations of the facade: the three methods of
    [QdrantService] the handlers call and the quick status check. *)
Inductive operation : Type :=
| CheckConnection
| ListCollectionsDetailed
| CreateCollection (collection_name : string) (vector_size : Z) (distance : string)
| QuickStatus.

Section Lifetime.

Context {W : Type} (sdk : SDK W) (cfg : QdrantConfig).

(** The state one operation leaves behind, whatever it returned or raised. *)
Definition run_operation (o : operation) (s : @St W) : St :=
  match o with
  | CheckConnection => snd (check_connection sdk cfg s)
  | ListCollectionsDetailed => snd (get_collections_info sdk s)
  | CreateCollection n v d => snd (create_collection sdk n v d s)
  | QuickStatus => snd (get_qdrant_status sdk s)
  end.

Definition run_operations (os : list operation) (s : @St W) : St :=
  fold_left (fun s o => run_operation o s) os s.

(** The two clock readings of a run of [check_connection] that gets as far
    as the second one. *)
Definition clock_readings (s : @St W) : option (float * float) :=
  match (start_time <- time_time sdk ;;
         client <- get_client sdk ;;
         _ <- call (get_collections sdk client) ;;
         end_time <- time_time sdk ;;
         ret (start_time, end_time)) s with
  | (Ok p, _) => Some p
  | (Raise _, _) => None
  end.

(** The first client call of an operation that acquires the client and
    lists the collections raises [e]: either [get_client] does, or the
    listing call made on the acquired client. *)
Definition client_calls_raise (s : @St W) (e : Exception) : Prop :=
  match get_client sdk s with
  | (Raise e', _) => e' = e
  | (Ok client, s1) => fst (get_collections sdk client (snd s1)) = Raise e
  end.

End Lifetime.

(** An SDK that records, next to the world, the clients its constructor
    has built so far. *)
Definition instrument {W : Type} (sdk : SDK W) : SDK (W * list Client) :=
  {| QdrantClient := fun params wl =>
       match QdrantClient sdk params (fst wl) with
       | (Ok c, w') => (Ok c, (w', (snd wl ++ [c])%list))
       | (Raise e, w') => (Raise e, (w', snd wl))
       end;
     get_collections := fun c wl =>
       let (r, w') := get_collections sdk c (fst wl) in (r, (w', snd wl));
     get_collection := fun c n wl =>
       let (r, w') := get_collection sdk c n (fst wl) in (r, (w', snd wl));
     sdk_create_collection := fun c n vp wl =>
       let (r, w') := sdk_create_collection sdk c n vp (fst wl) in (r, (w', snd wl));
     sdk_close := fun c wl =>
       let (r, w') := sdk_close sdk c (fst wl) in (r, (w', snd wl));
     Distance := Distance sdk;
     time := fun wl => let (t, w') := time sdk (fst wl) in (t, (w', snd wl));
     upper_non_ascii := upper_non_ascii sdk |}.

(** ** A simulated server

    A world with fixed answers, used to run the model on concrete inputs. *)

Module Sim.

Record world : Type := {
  now : float;                               (* the next clock reading *)
  tick : float;                              (* how the clock moves per reading *)
  next_client : nat;
  constructor_error : option Exception;
  listing : result Exception CollectionsResponse;
  details : string -> result Exception CollectionInfo;
  creation : string -> result Exception unit
}.

(** The members the docstring of [create_collection] lists. *)
Definition members (NAME : string) : option string :=
  if String.eqb NAME "COSINE" then Some "Cosine"
  else if String.eqb NAME "EUCLID" then Some "Euclid"
  else if String.eqb NAME "DOT" then Some "Dot"
  else None.

(** The case mapping of the non-ASCII characters the examples use: the
    dotless i (bytes 196 177) gives I, the long s (bytes 197 191) gives S;
    the other runs are kept. *)
Definition dotless_i : string :=
  String (ascii_of_nat 196) (String (ascii_of_nat 177) EmptyString).

Definition long_s : string :=
  String (ascii_of_nat 197) (String (ascii_of_nat 191) EmptyString).

Definition non_ascii_upper (run : string) : string :=
  if String.eqb run dotless_i then "I"
  else if String.eqb run long_s then "S"
  else run.

Definition sdk : SDK world :=
  {| QdrantClient := fun _ w =>
       match constructor_error w with
       | Some e => (Raise e, w)
       | None =>
           (Ok (next_client w),
            {| now := now w; tick := tick w; next_client := S (next_client w);
               constructor_error := constructor_error w; listing := listing w;
               details := details w; creation := creation w |})
       end;
     get_collections := fun _ w => (listing w, w);
     get_collection := fun _ n w => (details w n, w);
     sdk_create_collection := fun _ n _ w => (creation w n, w);
     sdk_close := fun _ w => (Ok tt, w);
     Distance := members;
     time := fun w =>
       (now w,
        {| now := (now w + tick w)%float; tick := tick w;
           next_client := next_client w;
           constructor_error := constructor_error w; listing := listing w;
           details := details w; creation := creation w |});
     upper_non_ascii := non_ascii_upper |}.

Definition cfg : QdrantConfig :=
  {| get_connection_string := "http://localhost:6333";
     get_connection_params :=
       VDict [ ("host", VStr "localhost"); ("port", VInt 6333) ] |}.

Definition described (n : string) : CollectionDescription :=
  {| name := n; vectors_count := None; points_count := None |}.

Definition info_of (n : Z) : CollectionInfo :=
  {| info_vectors_count := Some (VInt n);
     info_points_count := Some (VInt n);
     config :=
       Some {| params_vector :=
                 Ok {| size := Some (VInt 384); distance := Some (VStr "Cosine") |} |};
     status := Some (VStr "green") |}.

(** A healthy server with the collections [docs], [broken] and [notes];
    the detail call of [broken] fails. *)
Definition healthy : world :=
  {| now := 1000%float; tick := 0.125%float; next_client := 7;
     constructor_error := None;
     listing :=
       Ok {| collections := Some [described "docs"; described "broken"; described "notes"] |};
     details := fun n =>
       if String.eqb n "broken"
       then Raise (UnexpectedResponse "Unexpected Response: 500 (Internal Server Error)")
       else Ok (info_of 12);
     creation := fun _ => Ok tt |}.

(** A server whose listing call times out with an exception of empty text. *)
Definition silent : world :=
  {| now := 1000%float; tick := 0.125%float; next_client := 7;
     constructor_error := None;
     listing := Raise (OtherException "ResponseHandlingException" "");
     details := fun _ => Raise (OtherException "ResponseHandlingException" "");
     creation := fun _ => Raise (OtherException "ResponseHandlingException" "") |}.

(** A server that refuses connections. *)
Definition unreachable : world :=
  {| now := 1000%float; tick := 0.125%float; next_client := 7;
     constructor_error := None;
     listing := Raise (ConnectionError "[Errno 111] Connection refused");
     details := fun _ => Raise (ConnectionError "[Errno 111] Connection refused");
     creation := fun _ => Raise (ConnectionError "[Errno 111] Connection refused") |}.

(** A healthy server on a machine whose wall clock is set back by one
    second between two readings. *)
Definition clock_set_back : world :=
  {| now := 1000%float; tick := (-1)%float; next_client := 7;
     constructor_error := None;
     listing := Ok {| collections := Some [described "docs"] |};
     details := fun _ => Ok (info_of 12);
     creation := fun _ => Ok tt |}.

(** The global instance, before its first use. *)
Definition start (w : world) : @St world := (__init__ cfg, w).

End Sim.

(** ** Reading the loop of [get_collections_info] round by round *)

Section Rounds.

Context {W : Type} (sdk : SDK W).

(** The entry one round of the loop appends for [collection], and the
    state the round leaves. *)
Definition entry_of (client : Client) (collection : CollectionDescription)
    (s : @St W) : dict * St :=
  let (r, w1) := get_collection sdk client (name collection) (snd s) in
  (match r with
   | Ok collection_info =>
       match collection_details collection collection_info with
       | Ok info => info
       | Raise e => error_entry collection e
       end
   | Raise e => error_entry collection e
   end, (fst s, w1)).

(** The entries of all rounds, in order. *)
Fixpoint entries (client : Client) (cs : list CollectionDescription)
    (s : @St W) : list dict * St :=
  match cs with
  | [] => ([], s)
  | collection :: rest =>
      let (item, s1) := entry_of client collection s in
      let (items, s2) := entries client rest s1 in
      (item :: items, s2)
  end.

End Rounds.

(** ** The connection handler *)

Section ConnectionHandler.

Context {W : Type} (sdk : SDK W) (cfg : QdrantConfig).

(** [GET /qdrant/connection]: the handler function itself (the check of
    the returned dictionary against [response_model] is the framework's). *)
Definition check_qdrant_connection : M (@St W) Raised dict :=
  try_except
    (result <- check_connection sdk cfg ;;
     ret result)
    (fun e =>
       raise (HTTPException 500
                (VStr ("Failed to check Qdrant connection: " ++ str e)))).

End ConnectionHandler.

(** A count attribute of a listed collection that reads as the integer
    [n]: absent, which [getattr] defaults to 0, or the integer itself. *)
Definition count_value (a : option pyval) (n : Z) : Prop :=
  (a = None /\ n = 0) \/ a = Some (VInt n).

(** The [success] entry of what [create_collection] returned. *)
Definition success_flag (r : result Exception dict) : option pyval :=
  match r with
  | Ok d => dict_get "success" d
  | Raise _ => None
  end.

(** ** More simulated servers *)

Module Cases.

(** A listing whose collections carry counts. *)
Definition counted : Sim.world :=
  {| Sim.now := 50%float; Sim.tick := 0.25%float; Sim.next_client := 3;
     Sim.constructor_error := None;
     Sim.listing :=
       Ok {| collections :=
               Some [ {| name := "a"; vectors_count := Some (VInt 10);
                         points_count := Some (VInt 4) |};
                      {| name := "b"; vectors_count := None;
                         points_count := Some (VInt 6) |};
                      {| name := "c"; vectors_count := Some (VInt 5);
                         points_count := None |} ] |};
     Sim.details := fun _ => Ok (Sim.info_of 1);
     Sim.creation := fun _ => Ok tt |}.

(** A listing in which one collection has the count [None]. *)
Definition none_count : Sim.world :=
  {| Sim.now := 50%float; Sim.tick := 0.25%float; Sim.next_client := 3;
     Sim.constructor_error := None;
     Sim.listing :=
       Ok {| collections :=
               Some [ {| name := "a"; vectors_count := Some (VInt 10);
                         points_count := Some (VInt 4) |};
                      {| name := "b"; vectors_count := Some VNone;
                         points_count := Some (VInt 6) |} ] |};
     Sim.details := fun _ => Ok (Sim.info_of 1);
     Sim.creation := fun _ => Ok tt |}.

(** A listing answer without the attribute [collections]. *)
Definition no_attribute : Sim.world :=
  {| Sim.now := 50%float; Sim.tick := 0.25%float; Sim.next_client := 3;
     Sim.constructor_error := None;
     Sim.listing := Ok {| collections := None |};
     Sim.details := fun _ => Ok (Sim.info_of 1);
     Sim.creation := fun _ => Ok tt |}.

(** Detail answers whose [config.params] has no attribute [vector]. *)
Definition no_vector : Sim.world :=
  {| Sim.now := 50%float; Sim.tick := 0.25%float; Sim.next_client := 3;
     Sim.constructor_error := None;
     Sim.listing := Ok {| collections := Some [ Sim.described "docs" ] |};
     Sim.details := fun _ =>
       Ok {| info_vectors_count := Some (VInt 2);
             info_points_count := Some (VInt 2);
             config :=
               Some {| params_vector :=
                         Raise (AttributeError
                                  "'CollectionParams' object has no attribute 'vector'") |};
             status := Some (VStr "green") |};
     Sim.creation := fun _ => Ok tt |}.

(** A server that cannot be reached when the client is built. *)
Definition constructor_fails : Sim.world :=
  {| Sim.now := 50%float; Sim.tick := 0.25%float; Sim.next_client := 3;
     Sim.constructor_error := Some (OtherException "ValueError" "bad url");
     Sim.listing := Ok {| collections := Some [] |};
     Sim.details := fun _ => Ok (Sim.info_of 1);
     Sim.creation := fun _ => Ok tt |}.

(** The simulated SDK with a constructor that fails once (the failure is
    consumed) and a [close] that raises. *)
Definition flaky_sdk : SDK Sim.world :=
  {| QdrantClient := fun params w =>
       match Sim.constructor_error w with
       | Some e =>
           (Raise e,
            {| Sim.now := Sim.now w; Sim.tick := Sim.tick w;
               Sim.next_client := Sim.next_client w;
               Sim.constructor_error := None; Sim.listing := Sim.listing w;
               Sim.details := Sim.details w; Sim.creation := Sim.creation w |})
       | None => QdrantClient Sim.sdk params w
       end;
     get_collections := get_collections Sim.sdk;
     get_collection := get_collection Sim.sdk;
     sdk_create_collection := sdk_create_collection Sim.sdk;
     sdk_close := fun _ w => (Raise (OtherException "RuntimeError" "close failed"), w);
     Distance := Sim.members;
     time := time Sim.sdk;
     upper_non_ascii := Sim.non_ascii_upper |}.

(** An instance that already holds the client 3. *)
Definition holding (w : Sim.world) : @St Sim.world :=
  ({| _client := Some 3%nat;
      _connection_params := get_connection_params Sim.cfg |}, w).

End Cases.

(** ** Properties of the state that computations keep *)

(** A computation keeps a property of the state. *)
Definition preserves {S E A} (I : S -> Prop) (m : M S E A) : Prop :=
  forall s, I s -> I (snd (m s)).

(** The instance has the connection parameters [p]. *)
Definition same_params {W : Type} (p : pyval) (s : @St W) : Prop :=
  _connection_params (fst s) = p.

(** The instance holds the client [c]. *)
Definition holds {W : Type} (c : Client) (s : @St W) : Prop :=
  _client (fst s) = Some c.

(** With the instrumented SDK: the clients built so far are none when the
    instance holds none, and otherwise the one it holds. *)
Definition built_once {W : Type} (s : @St (W * list Client)) : Prop :=
  match _client (fst s) with
  | None => snd (snd s) = []
  | Some c => snd (snd s) = [c]
  end.

(** * Properties *)

(** ** Running the monad *)

Lemma bind_ok {S E A B} (m : M S E A) (k : A -> M S E B) s a s1 :
  m s = (Ok a, s1) -> bind m k s = k a s1.
Proof. intros H. unfold bind. now rewrite H. Qed.

Lemma bind_raise {S E A B} (m : M S E A) (k : A -> M S E B) s e s1 :
  m s = (Raise e, s1) -> bind m k s = (Raise e, s1).
Proof. intros H. unfold bind. now rewrite H. Qed.

Lemma try_except_ok {S E E' A} (m : M S E A) (h : E -> M S E' A) s a s1 :
  m s = (Ok a, s1) -> try_except m h s = (Ok a, s1).
Proof. intros H. unfold try_except. now rewrite H. Qed.

Lemma try_except_raise {S E E' A} (m : M S E A) (h : E -> M S E' A) s e s1 :
  m s = (Raise e, s1) -> try_except m h s = h e s1.
Proof. intros H. unfold try_except. now rewrite H. Qed.

Lemma preserves_ret {S E A} (I : S -> Prop) (a : A) : preserves I (@ret S E A a).
Proof. intros s H. exact H. Qed.

Lemma preserves_raise {S E A} (I : S -> Prop) (e : E) :
  preserves I (@raise S E A e).
Proof. intros s H. exact H. Qed.

Lemma preserves_lift {S E A} (I : S -> Prop) (r : result E A) :
  preserves I (@lift S E A r).
Proof. intros s H. exact H. Qed.

Lemma preserves_bind {S E A B} (I : S -> Prop) (m : M S E A) (k : A -> M S E B) :
  preserves I m -> (forall a, preserves I (k a)) -> preserves I (bind m k).
Proof.
  intros Hm Hk s H. unfold bind.
  specialize (Hm s H). destruct (m s) as [[a | e] s1]; simpl in *.
  - apply Hk, Hm.
  - exact Hm.
Qed.

Lemma preserves_try_except {S E E' A} (I : S -> Prop) (m : M S E A)
    (h : E -> M S E' A) :
  preserves I m -> (forall e, preserves I (h e)) -> preserves I (try_except m h).
Proof.
  intros Hm Hh s H. unfold try_except.
  specialize (Hm s H). destruct (m s) as [[a | e] s1]; simpl in *.
  - exact Hm.
  - apply Hh, Hm.
Qed.

Lemma preserves_get_self {W E} (I : @St W -> Prop) : preserves I (@get_self W E).
Proof. intros s H. exact H. Qed.

Create HintDb preserves.
#[export] Hint Resolve preserves_ret preserves_raise preserves_lift
  preserves_get_self : preserves.

(** Splits a computation into its steps and closes the steps the hints know. *)
Ltac preserves_steps :=
  repeat
    (cbv beta zeta;
     match goal with
     | |- preserves _ (bind _ _) => apply preserves_bind; [ | intro ]
     | |- preserves _ (try_except _ _) => apply preserves_try_except; [ | intro ]
     end);
  auto with preserves.

Section Proofs.

Context {W : Type} (sdk : SDK W) (cfg : QdrantConfig).

Local Abbreviation St := (@St W).

(** *** [get_client] *)

Lemma get_client_cached (s : St) c :
  _client (fst s) = Some c -> get_client sdk s = (Ok c, s).
Proof.
  intros H. unfold get_client, bind, get_self. simpl. now rewrite H.
Qed.

Lemma get_client_stores (s : St) c s1 :
  get_client sdk s = (Ok c, s1) -> _client (fst s1) = Some c.
Proof.
  unfold get_client, bind, get_self, call, set_client, ret. simpl.
  destruct (_client (fst s)) as [c0 |] eqn:Hc.
  - intros H. injection H as <- <-. exact Hc.
  - destruct (QdrantClient sdk _ _) as [[c1 | e] w1]; intros H.
    + injection H as <- <-. reflexivity.
    + discriminate.
Qed.

(** *** [check_connection] *)

(** What the [try] block returns when it completes. *)
Lemma check_connection_try_connected (s : St) d s' :
  check_connection_try sdk cfg s = (Ok d, s') ->
  exists server_info entries t0 t1,
    clock_readings sdk s = Some (t0, t1) /\
    d = [ ("status", VStr "connected");
          ("connection_string", VStr (get_connection_string cfg));
          ("error", VNone);
          ("server_info", server_info);
          ("collections", VList entries);
          ("response_time_ms", VFloat (round2 ((t1 - t0) * 1000)%float)) ].
Proof.
  unfold check_connection_try, clock_readings, bind, lift, ret.
  destruct (time_time sdk s) as [[t0 | e0] s1]; [ | discriminate ].
  destruct (get_client sdk s1) as [[c | e1] s2]; [ | discriminate ].
  destruct (call (get_collections sdk c) s2) as [[r | e2] s3]; [ | discriminate ].
  destruct (time_time sdk s3) as [[t1 | e3] s4]; [ | discriminate ].
  destruct (py_sum _) as [tv | e4]; [ | discriminate ].
  destruct (py_sum _) as [tp | e5]; [ | discriminate ].
  intros H. injection H as <- <-.
  eexists _, _, t0, t1. split; reflexivity.
Qed.

(** [check_connection] always returns, with the initial dictionary and its
    [error] set when the [try] block raised. *)
Lemma check_connection_cases (s : St) :
  exists d s', check_connection sdk cfg s = (Ok d, s') /\
    ((check_connection_try sdk cfg s = (Ok d, s'))
     \/ exists e, check_connection_try sdk cfg s = (Raise e, s') /\
          d = [ ("status", VStr "disconnected");
                ("connection_string", VStr (get_connection_string cfg));
                ("error", VStr (error_msg e));
                ("server_info", VNone);
                ("collections", VList []);
                ("response_time_ms", VNone) ]).
Proof.
  unfold check_connection, try_except.
  destruct (check_connection_try sdk cfg s) as [[d | e] s1].
  - exists d, s1. split; [ reflexivity | now left ].
  - eexists _, s1. split; [ reflexivity | ].
    right. exists e. split; reflexivity.
Qed.

Lemma error_msg_not_empty e : error_msg e <> "".
Proof. destruct e; discriminate. Qed.

(** C1.  Whatever exception [e] the client calls of [check_connection]
    raise after the first clock reading (server error, connection error or
    any other), the method does not raise: it returns a dictionary whose
    [status] is "disconnected" and whose [error] is a string, the non-empty
    text built from the exception. *)
Theorem check_connection_reports_failure (s : St) (e : Exception) :
  client_calls_raise sdk (snd (time_time sdk s)) e ->
  exists d s',
    check_connection sdk cfg s = (Ok d, s') /\
    dict_get "status" d = Some (VStr "disconnected") /\
    dict_get "error" d = Some (VStr (error_msg e)) /\
    error_msg e <> "".
Proof.
  intros H.
  destruct (check_connection_cases s) as (d & s' & Hrun & Hcase).
  exists d, s'. split; [ exact Hrun | ].
  assert (Htry : exists s1, check_connection_try sdk cfg s = (Raise e, s1)).
  { unfold client_calls_raise in H.
    unfold check_connection_try, bind.
    destruct (time_time sdk s) as [[t0 | e0] s1] eqn:Ht.
    - simpl in H.
      destruct (get_client sdk s1) as [[c | e1] s2].
      + unfold call. destruct (get_collections sdk c (snd s2)) as [r w3].
        simpl in H. subst r. eexists. reflexivity.
      + subst e1. eexists. reflexivity.
    - unfold time_time in Ht. destruct (time sdk (snd s)). discriminate. }
  destruct Htry as [s1 Htry].
  destruct Hcase as [Hok | (e' & Hraise & ->)].
  - rewrite Htry in Hok. discriminate.
  - rewrite Htry in Hraise. injection Hraise as <- _.
    repeat split; try reflexivity. apply error_msg_not_empty.
Qed.

(** C10.  The dictionary [check_connection] returns has [status]
    "connected" or "disconnected"; its [error] is [None] exactly when the
    status is "connected"; and with status "disconnected" its
    [server_info] is [None], its [collections] the empty list and its
    [response_time_ms] [None]. *)
Theorem check_connection_report_consistent (s : St) :
  exists d s',
    check_connection sdk cfg s = (Ok d, s') /\
    (dict_get "status" d = Some (VStr "connected")
     \/ dict_get "status" d = Some (VStr "disconnected")) /\
    (dict_get "error" d = Some VNone
     <-> dict_get "status" d = Some (VStr "connected")) /\
    (dict_get "status" d = Some (VStr "disconnected") ->
     dict_get "server_info" d = Some VNone /\
     dict_get "collections" d = Some (VList []) /\
     dict_get "response_time_ms" d = Some VNone).
Proof.
  destruct (check_connection_cases s) as (d & s' & Hrun & Hcase).
  exists d, s'. split; [ exact Hrun | ].
  destruct Hcase as [Hok | (e & _ & ->)].
  - apply check_connection_try_connected in Hok.
    destruct Hok as (si & entries & t0 & t1 & _ & ->).
    split; [ now left | ]. split.
    + split; reflexivity.
    + discriminate.
  - split; [ now right | ]. split.
    + split; discriminate.
    + intros _. repeat split.
Qed.

(** *** [get_collections_info] *)

Lemma collect_details_cons client collection rest acc (s : St) :
  collect_details sdk client (collection :: rest) acc s =
  collect_details sdk client rest
    (acc ++ [fst (entry_of sdk client collection s)])%list
    (snd (entry_of sdk client collection s)).
Proof.
  cbn [collect_details]. unfold bind, try_except, call, lift, ret, entry_of.
  destruct (get_collection sdk client (name collection) (snd s)) as [[info | e] w1];
    [ | reflexivity ].
  destruct (collection_details collection info); reflexivity.
Qed.

(** The loop never raises: it returns the accumulator followed by the
    entries of its rounds. *)
Lemma collect_details_entries client cs : forall acc (s : St),
  collect_details sdk client cs acc s =
  (Ok (acc ++ fst (entries sdk client cs s))%list, snd (entries sdk client cs s)).
Proof.
  induction cs as [| collection rest IH]; intros acc s.
  - cbn. now rewrite app_nil_r.
  - rewrite collect_details_cons, IH. cbn [entries].
    destruct (entry_of sdk client collection s) as [item s1]. cbn [fst snd].
    destruct (entries sdk client rest s1) as [items s2]. cbn [fst snd].
    rewrite <- app_assoc. reflexivity.
Qed.

Lemma entries_length client cs : forall s : St,
  List.length (fst (entries sdk client cs s)) = List.length cs.
Proof.
  induction cs as [| collection rest IH]; intros s; cbn.
  - reflexivity.
  - destruct (entry_of sdk client collection s) as [item s1].
    specialize (IH s1). destruct (entries sdk client rest s1). cbn in *.
    now rewrite IH.
Qed.

(** The entry at position [i] is the one the round of the [i]-th
    collection builds in the state the rounds before it leave. *)
Lemma entries_nth client cs : forall i (s : St) collection,
  nth_error cs i = Some collection ->
  nth_error (fst (entries sdk client cs s)) i =
  Some (fst (entry_of sdk client collection
               (snd (entries sdk client (firstn i cs) s)))).
Proof.
  induction cs as [| c rest IH]; intros [| i] s collection H; cbn in H.
  - discriminate.
  - discriminate.
  - injection H as ->. cbn.
    destruct (entry_of sdk client collection s) as [item s1].
    destruct (entries sdk client rest s1). reflexivity.
  - cbn. destruct (entry_of sdk client c s) as [item s1].
    specialize (IH i s1 collection H).
    destruct (entries sdk client rest s1) as [items s2].
    destruct (entries sdk client (firstn i rest) s1) as [items' s2'].
    exact IH.
Qed.

Lemma collection_details_name collection info d :
  collection_details collection info = Ok d ->
  dict_get "name" d = Some (VStr (name collection)).
Proof.
  unfold collection_details.
  destruct (config info) as [c |].
  - destruct (params_vector c); intros H; [ injection H as <- | discriminate ].
    reflexivity.
  - intros H. injection H as <-. reflexivity.
Qed.

Lemma entry_of_name client collection (s : St) :
  dict_get "name" (fst (entry_of sdk client collection s)) =
  Some (VStr (name collection)).
Proof.
  unfold entry_of.
  destruct (get_collection sdk client (name collection) (snd s)) as [[info | e] w1];
    [ | reflexivity ].
  cbn [fst]. destruct (collection_details collection info) eqn:Hd.
  - eapply collection_details_name, Hd.
  - reflexivity.
Qed.

Lemma entry_of_failure client collection (s : St) e :
  fst (get_collection sdk client (name collection) (snd s)) = Raise e ->
  fst (entry_of sdk client collection s) = error_entry collection e.
Proof.
  unfold entry_of.
  destruct (get_collection sdk client (name collection) (snd s)) as [r w1].
  cbn [fst]. intros ->. reflexivity.
Qed.

Lemma entry_of_success client collection (s : St) info :
  fst (get_collection sdk client (name collection) (snd s)) = Ok info ->
  fst (entry_of sdk client collection s) =
  match collection_details collection info with
  | Ok d => d
  | Raise e => error_entry collection e
  end.
Proof.
  unfold entry_of.
  destruct (get_collection sdk client (name collection) (snd s)) as [r w1].
  cbn [fst]. intros ->. reflexivity.
Qed.

(** C2.  When the client is acquired and the listing call succeeds with the
    collections [cs], [get_collections_info] returns a list with one entry
    per collection of [cs], in order, each under the name of its
    collection.  The entry of a collection whose detail call raised [e]
    is the dictionary with [name] and [error] alone; the entry of every
    other collection is built from the answer of its own detail call, the
    full [info] dictionary, whatever happened to the collections before
    it. *)
Theorem get_collections_info_isolates_failures (s : St) client s1 r w2 cs :
  get_client sdk s = (Ok client, s1) ->
  get_collections sdk client (snd s1) = (Ok r, w2) ->
  collections r = Some cs ->
  exists items s',
    get_collections_info sdk s = (Ok items, s') /\
    List.length items = List.length cs /\
    forall i collection,
      nth_error cs i = Some collection ->
      exists item,
        nth_error items i = Some item /\
        dict_get "name" item = Some (VStr (name collection)) /\
        (forall e,
           fst (get_collection sdk client (name collection)
                  (snd (snd (collect_details sdk client (firstn i cs) []
                               (fst s1, w2))))) = Raise e ->
           item = [ ("name", VStr (name collection)); ("error", VStr (str e)) ]) /\
        (forall collection_info,
           fst (get_collection sdk client (name collection)
                  (snd (snd (collect_details sdk client (firstn i cs) []
                               (fst s1, w2))))) = Ok collection_info ->
           item =
             match collection_details collection collection_info with
             | Ok info => info
             | Raise e =>
                 [ ("name", VStr (name collection)); ("error", VStr (str e)) ]
             end).
Proof.
  intros Hclient Hlist Hattr.
  exists (fst (entries sdk client cs (fst s1, w2))),
         (snd (entries sdk client cs (fst s1, w2))).
  split.
  - unfold get_collections_info, try_except, bind.
    rewrite Hclient. unfold call. rewrite Hlist.
    unfold lift, collections_attr. rewrite Hattr.
    now rewrite collect_details_entries.
  - split; [ apply entries_length | ].
    intros i collection Hi. eexists. split; [ apply entries_nth, Hi | ].
    split; [ apply entry_of_name | ]. split.
    + intros e He. rewrite collect_details_entries in He. cbn [snd] in He.
      now apply entry_of_failure.
    + intros info He. rewrite collect_details_entries in He. cbn [snd] in He.
      now apply entry_of_success.
Qed.

(** C3.  When the client is acquired and the listing call raises [e],
    [get_collections_info] raises [e] to its caller, and the handler of
    GET /qdrant/collections raises an [HTTPException] with status 500,
    which is the status of the response. *)
Theorem get_collections_info_propagates (s : St) client s1 e w2 :
  get_client sdk s = (Ok client, s1) ->
  get_collections sdk client (snd s1) = (Raise e, w2) ->
  get_collections_info sdk s = (Raise e, (fst s1, w2)) /\
  get_qdrant_collections sdk s =
    (Raise (HTTPException 500 (VStr ("Failed to get collections: " ++ str e))),
     (fst s1, w2)) /\
  fst (http_response (fst (get_qdrant_collections sdk s))) = 500.
Proof.
  intros Hclient Hlist.
  assert (H : get_collections_info sdk s = (Raise e, (fst s1, w2))).
  { unfold get_collections_info, try_except, bind.
    rewrite Hclient. unfold call. rewrite Hlist. reflexivity. }
  assert (H' : get_qdrant_collections sdk s =
    (Raise (HTTPException 500 (VStr ("Failed to get collections: " ++ str e))),
     (fst s1, w2))).
  { unfold get_qdrant_collections, try_except, bind. rewrite H. reflexivity. }
  split; [ exact H | ]. split; [ exact H' | ].
  rewrite H'. reflexivity.
Qed.

(** *** [create_collection] *)

(** C4.  [create_collection] never raises: it returns a dictionary, which
    is the tagged failure [{success: False, error: ...}] when acquiring the
    client, the dispatch on the metric name or the remote call raised, and
    the success dictionary otherwise. *)
Theorem create_collection_never_raises collection_name vector_size distance
    (s : St) :
  exists d s',
    create_collection sdk collection_name vector_size distance s = (Ok d, s') /\
    let failed e :=
      [ ("success", VBool false);
        ("error",
         VStr ("Failed to create collection '" ++ collection_name ++ "': "
               ++ str e)) ] in
    match get_client sdk s with
    | (Raise e, _) => d = failed e
    | (Ok client, s1) =>
        match Distance sdk (upper sdk distance) with
        | None => d = failed (AttributeError (upper sdk distance))
        | Some metric =>
            match sdk_create_collection sdk client collection_name
                    {| vp_size := vector_size; vp_distance := metric |}
                    (snd s1) with
            | (Raise e, _) => d = failed e
            | (Ok _, _) =>
                d = [ ("success", VBool true);
                      ("collection_name", VStr collection_name);
                      ("vector_size", VInt vector_size);
                      ("distance", VStr distance);
                      ("message",
                       VStr ("Collection '" ++ collection_name
                             ++ "' created successfully")) ]
            end
        end
    end.
Proof.
  unfold create_collection, try_except, bind, lift, call, getattr_Distance, ret.
  destruct (get_client sdk s) as [[client | e] s1].
  - destruct (Distance sdk (upper sdk distance)) as [metric |].
    + destruct (sdk_create_collection sdk client collection_name _ (snd s1))
        as [[u | e] w2]; eexists _, _; split; reflexivity.
    + eexists _, _; split; reflexivity.
  - eexists _, _; split; reflexivity.
Qed.

(** C5.  When the upper-cased distance string is not the name of a member
    of the distance enum, [create_collection] returns the tagged failure
    instead of raising, the handler of POST /qdrant/collections raises an
    [HTTPException] with status 400 and the reported error as detail, and
    the response has status 400. *)
Theorem unrecognized_distance_is_400 (collection_data : CollectionCreate)
    (s : St) :
  Distance sdk (upper sdk (cc_distance collection_data)) = None ->
  exists msg s',
    create_collection sdk (cc_name collection_data)
      (cc_vector_size collection_data) (cc_distance collection_data) s =
      (Ok [ ("success", VBool false); ("error", VStr msg) ], s') /\
    create_qdrant_collection sdk collection_data s =
      (Raise (HTTPException 400 (VStr msg)), s') /\
    http_response (fst (create_qdrant_collection sdk collection_data s)) =
      (400, VDict [ ("detail", VStr msg) ]).
Proof.
  intros Hd.
  assert (H : exists msg s',
    create_collection sdk (cc_name collection_data)
      (cc_vector_size collection_data) (cc_distance collection_data) s =
      (Ok [ ("success", VBool false); ("error", VStr msg) ], s')).
  { unfold create_collection, try_except, bind, lift, getattr_Distance, ret.
    rewrite Hd.
    destruct (get_client sdk s) as [[client | e] s1]; eexists _, _; reflexivity. }
  destruct H as (msg & s' & H).
  assert (H' : create_qdrant_collection sdk collection_data s =
                 (Raise (HTTPException 400 (VStr msg)), s')).
  { unfold create_qdrant_collection, facade.
    unfold try_except at 1. unfold bind at 1.
    rewrite (try_except_ok _ _ _ _ _ H). reflexivity. }
  exists msg, s'. split; [ exact H | ]. split; [ exact H' | ].
  rewrite H'. reflexivity.
Qed.

(** C9.  [create_collection("docs", 384, "Cosine")], when the client is
    acquired, the enum has the member COSINE and the remote call succeeds,
    returns a dictionary with [success] true, [collection_name] "docs",
    [vector_size] 384 and [distance] "Cosine", the string of the caller. *)
Theorem create_collection_docs (s : St) client s1 metric w2 :
  get_client sdk s = (Ok client, s1) ->
  Distance sdk "COSINE" = Some metric ->
  sdk_create_collection sdk client "docs"
    {| vp_size := 384; vp_distance := metric |} (snd s1) = (Ok tt, w2) ->
  exists d,
    create_collection sdk "docs" 384 "Cosine" s = (Ok d, (fst s1, w2)) /\
    dict_get "success" d = Some (VBool true) /\
    dict_get "collection_name" d = Some (VStr "docs") /\
    dict_get "vector_size" d = Some (VInt 384) /\
    dict_get "distance" d = Some (VStr "Cosine").
Proof.
  intros Hclient Hmember Hcreate.
  eexists. split.
  - unfold create_collection, try_except, bind, lift, call, getattr_Distance, ret.
    rewrite Hclient. change (upper sdk "Cosine") with "COSINE".
    rewrite Hmember, Hcreate. reflexivity.
  - repeat split.
Qed.

(** *** The quick status check *)

(** C6, as the code has it.  When acquiring the client or the listing call
    raises [e], the handler of GET /qdrant/status returns (status 200) a
    dictionary with [status] "disconnected", with [error] the text
    [str(e)] of the exception, and with the message "Qdrant is not
    accessible". *)
Theorem quick_status_reports_failure (s : St) (e : Exception) :
  client_calls_raise sdk s e ->
  exists d s',
    get_qdrant_status sdk s = (Ok d, s') /\
    dict_get "status" d = Some (VStr "disconnected") /\
    dict_get "error" d = Some (VStr (str e)) /\
    dict_get "message" d = Some (VStr "Qdrant is not accessible") /\
    fst (http_response (Ok d)) = 200.
Proof.
  unfold client_calls_raise, get_qdrant_status, try_except, bind, call, get_self, ret.
  destruct (get_client sdk s) as [[client | e1] s1].
  - destruct (get_collections sdk client (snd s1)) as [r w2]. cbn [fst].
    intros ->. eexists _, _. repeat split.
  - intros ->. eexists _, _. repeat split.
Qed.

End Proofs.

(** ** The client over the lifetime of an instance *)

Section Invariant.

Context {W : Type} (sdk : SDK W) (cfg : QdrantConfig) (I : @St W -> Prop).

Hypothesis I_get_client : preserves I (get_client sdk).
Hypothesis I_time : preserves I (time_time sdk).
Hypothesis I_list : forall c, preserves I (call (get_collections sdk c)).
Hypothesis I_detail : forall c n, preserves I (call (get_collection sdk c n)).
Hypothesis I_create :
  forall c n vp, preserves I (call (sdk_create_collection sdk c n vp)).

Local Hint Resolve I_get_client I_time I_list I_detail I_create : preserves.

Lemma preserves_collect_details client cs :
  forall acc, preserves I (collect_details sdk client cs acc).
Proof.
  induction cs as [| collection rest IH]; intros acc; cbn [collect_details].
  - auto with preserves.
  - preserves_steps.
Qed.

Local Hint Resolve preserves_collect_details : preserves.

Lemma preserves_check_connection : preserves I (check_connection sdk cfg).
Proof. unfold check_connection, check_connection_try. preserves_steps. Qed.

Lemma preserves_get_collections_info : preserves I (get_collections_info sdk).
Proof. unfold get_collections_info. preserves_steps. Qed.

Lemma preserves_create_collection n v d :
  preserves I (create_collection sdk n v d).
Proof. unfold create_collection. preserves_steps. Qed.

Lemma preserves_get_qdrant_status : preserves I (get_qdrant_status sdk).
Proof. unfold get_qdrant_status. preserves_steps. Qed.

Lemma run_operation_preserves o s : I s -> I (run_operation sdk cfg o s).
Proof.
  destruct o; cbn [run_operation].
  - apply preserves_check_connection.
  - apply preserves_get_collections_info.
  - apply preserves_create_collection.
  - apply preserves_get_qdrant_status.
Qed.

Lemma run_operations_preserves os :
  forall s, I s -> I (run_operations sdk cfg os s).
Proof.
  unfold run_operations.
  induction os as [| o os IH]; intros s H; cbn [fold_left].
  - exact H.
  - apply IH, run_operation_preserves, H.
Qed.

End Invariant.

Section Handle.

Context {W : Type} (sdk : SDK W) (cfg : QdrantConfig).

Lemma call_keeps_self {A} (f : W -> result Exception A * W) (s : @St W) :
  fst (snd (call f s)) = fst s.
Proof. unfold call. destruct (f (snd s)). reflexivity. Qed.

Lemma holds_call {A} c (f : W -> result Exception A * W) :
  preserves (holds c) (call f).
Proof. intros s H. unfold holds. now rewrite call_keeps_self. Qed.

Lemma holds_time c : preserves (holds c) (time_time sdk).
Proof.
  intros s H. unfold holds, time_time. destruct (time sdk (snd s)). exact H.
Qed.

Lemma holds_get_client c : preserves (holds c) (get_client sdk).
Proof. intros s H. now rewrite (get_client_cached sdk s c H). Qed.

Lemma built_once_get_client : preserves built_once (get_client (instrument sdk)).
Proof.
  intros s H. unfold built_once in *.
  unfold get_client, bind, get_self. cbn [fst].
  destruct (_client (fst s)) eqn:Hc.
  - cbn. now rewrite Hc.
  - unfold call, set_client, ret. cbn.
    destruct (QdrantClient sdk _ (fst (snd s))) as [[c | e] w1]; cbn.
    + now rewrite H.
    + now rewrite Hc.
Qed.

Lemma built_once_time : preserves built_once (time_time (instrument sdk)).
Proof.
  intros s H. unfold built_once, time_time in *. cbn.
  destruct (time sdk (fst (snd s))). exact H.
Qed.

Lemma built_once_list c :
  preserves built_once (call (get_collections (instrument sdk) c)).
Proof.
  intros s H. unfold built_once, call in *. cbn.
  destruct (get_collections sdk c (fst (snd s))). exact H.
Qed.

Lemma built_once_detail c n :
  preserves built_once (call (get_collection (instrument sdk) c n)).
Proof.
  intros s H. unfold built_once, call in *. cbn.
  destruct (get_collection sdk c n (fst (snd s))). exact H.
Qed.

Lemma built_once_create c n vp :
  preserves built_once (call (sdk_create_collection (instrument sdk) c n vp)).
Proof.
  intros s H. unfold built_once, call in *. cbn.
  destruct (sdk_create_collection sdk c n vp (fst (snd s))). exact H.
Qed.

(** [close] is the one method that drops a held client; no handler calls
    it, and it is not among the operations of [run_operations]. *)
Lemma close_drops_client (s : @St W) c w1 :
  _client (fst s) = Some c ->
  sdk_close sdk c (snd s) = (Ok tt, w1) ->
  _client (fst (snd (close sdk s))) = None.
Proof.
  intros Hc Hclose.
  unfold close, bind, get_self, try_except, call, set_client. cbn [fst].
  rewrite Hc. cbn. rewrite Hclose. reflexivity.
Qed.

(** C8.  A new instance holds no client.  [get_client] builds one only
    when the instance holds none, and stores it; when the instance holds a
    client, [get_client] returns that client and changes nothing.  Whatever
    operations of the facade run afterwards, the instance keeps holding the
    same client; and over any run of operations from a new instance, the
    constructor builds at most one client, the one the instance holds. *)
Theorem client_handle_reused :
  _client (__init__ cfg) = None /\
  (forall (s : @St W) c,
     _client (fst s) = Some c -> get_client sdk s = (Ok c, s)) /\
  (forall (s : @St W) c s1,
     get_client sdk s = (Ok c, s1) -> _client (fst s1) = Some c) /\
  (forall os (s : @St W) c,
     _client (fst s) = Some c ->
     _client (fst (run_operations sdk cfg os s)) = Some c) /\
  (forall os (w : W),
     let s' := run_operations (instrument sdk) cfg os (__init__ cfg, (w, [])) in
     match _client (fst s') with
     | None => snd (snd s') = []
     | Some c => snd (snd s') = [c]
     end).
Proof.
  split; [ reflexivity | ].
  split; [ apply get_client_cached | ].
  split; [ apply get_client_stores | ].
  split.
  - intros os s c H.
    apply (run_operations_preserves sdk cfg (holds c)); auto using
      holds_get_client, holds_time, holds_call.
  - intros os w.
    apply (run_operations_preserves (instrument sdk) cfg built_once); auto using
      built_once_get_client, built_once_time, built_once_list,
      built_once_detail, built_once_create.
    reflexivity.
Qed.

End Handle.

(** ** The model at work on the simulated server *)

Example upper_Cosine : upper Sim.sdk "Cosine" = "COSINE".
Proof. reflexivity. Qed.

Example upper_dotless_i :
  upper Sim.sdk ("cos" ++ Sim.dotless_i ++ "ne") = "COSINE".
Proof. reflexivity. Qed.

Example round2_of_doubles :
  round2 0.125 = 0.12%float /\ round2 0.375 = 0.38%float /\
  round2 2.5 = 2.5%float /\ round2 (-1000) = (-1000)%float /\
  round2 ((0.000125 - 0) * 1000) = 0.12%float.
Proof. repeat split; vm_compute; reflexivity. Qed.

Example healthy_connection :
  fst (check_connection Sim.sdk Sim.cfg (Sim.start Sim.healthy)) =
  Ok [ ("status", VStr "connected");
       ("connection_string", VStr "http://localhost:6333");
       ("error", VNone);
       ("server_info",
        VDict [ ("collections_count", VInt 3); ("total_vectors", VInt 0);
                ("total_points", VInt 0) ]);
       ("collections",
        VList (map (fun n => VDict [ ("name", VStr n); ("vectors_count", VInt 0);
                                     ("points_count", VInt 0) ])
                 [ "docs"; "broken"; "notes" ]));
       ("response_time_ms", VFloat 125) ].
Proof. vm_compute. reflexivity. Qed.

Example dotless_i_creation_is_200 :
  fst (http_response
         (fst (create_qdrant_collection Sim.sdk
                 {| cc_name := "docs"; cc_vector_size := 384;
                    cc_distance := "cos" ++ Sim.dotless_i ++ "ne" |}
                 (Sim.start Sim.healthy)))) = 200.
Proof. reflexivity. Qed.

Example healthy_creation_is_200 :
  fst (http_response
         (fst (create_qdrant_collection Sim.sdk
                 {| cc_name := "docs"; cc_vector_size := 384;
                    cc_distance := "Cosine" |}
                 (Sim.start Sim.healthy)))) = 200.
Proof. reflexivity. Qed.

Lemma check_connection_reports_failure_witness :
  exists d s',
    check_connection Sim.sdk Sim.cfg (Sim.start Sim.unreachable) = (Ok d, s') /\
    dict_get "status" d = Some (VStr "disconnected") /\
    dict_get "error" d =
      Some (VStr "Connection failed: [Errno 111] Connection refused").
Proof.
  destruct (check_connection_reports_failure Sim.sdk Sim.cfg
              (Sim.start Sim.unreachable)
              (ConnectionError "[Errno 111] Connection refused"))
    as (d & s' & Hrun & Hstatus & Herror & _).
  - vm_compute. reflexivity.
  - exists d, s'. repeat split; assumption.
Defined.

Lemma get_collections_info_isolates_failures_witness :
  exists items s',
    get_collections_info Sim.sdk (Sim.start Sim.healthy) = (Ok items, s') /\
    List.length items = 3%nat /\
    nth_error items 1 =
      Some [ ("name", VStr "broken");
             ("error", VStr "Unexpected Response: 500 (Internal Server Error)") ] /\
    nth_error items 2 =
      Some [ ("name", VStr "notes"); ("vectors_count", VInt 12);
             ("points_count", VInt 12);
             ("config",
              VDict [ ("vector_size", VInt 384); ("distance", VStr "Cosine") ]);
             ("status", VStr "green") ].
Proof.
  destruct (get_collections_info_isolates_failures Sim.sdk
              (Sim.start Sim.healthy) 7%nat
              (snd (get_client Sim.sdk (Sim.start Sim.healthy)))
              {| collections :=
                   Some [ Sim.described "docs"; Sim.described "broken";
                          Sim.described "notes" ] |}
              (snd (snd (get_client Sim.sdk (Sim.start Sim.healthy))))
              [ Sim.described "docs"; Sim.described "broken";
                Sim.described "notes" ])
    as (items & s' & Hrun & Hlen & Hnth).
  - reflexivity.
  - reflexivity.
  - reflexivity.
  - exists items, s'. split; [ exact Hrun | ]. split; [ exact Hlen | ].
    destruct (Hnth 1%nat (Sim.described "broken") eq_refl)
      as (item1 & Hitem1 & _ & Herr & _).
    destruct (Hnth 2%nat (Sim.described "notes") eq_refl)
      as (item2 & Hitem2 & _ & _ & Hinfo).
    rewrite Hitem1, Hitem2. split; f_equal.
    + apply (Herr (UnexpectedResponse
                     "Unexpected Response: 500 (Internal Server Error)")).
      vm_compute. reflexivity.
    + apply (Hinfo (Sim.info_of 12)). vm_compute. reflexivity.
Defined.

Lemma get_collections_info_propagates_witness :
  fst (get_collections_info Sim.sdk (Sim.start Sim.unreachable)) =
    Raise (ConnectionError "[Errno 111] Connection refused") /\
  fst (get_qdrant_collections Sim.sdk (Sim.start Sim.unreachable)) =
    Raise (HTTPException 500
             (VStr "Failed to get collections: [Errno 111] Connection refused")).
Proof.
  destruct (get_collections_info_propagates Sim.sdk
              (Sim.start Sim.unreachable) 7%nat
              (snd (get_client Sim.sdk (Sim.start Sim.unreachable)))
              (ConnectionError "[Errno 111] Connection refused")
              (snd (snd (get_client Sim.sdk (Sim.start Sim.unreachable)))))
    as (Hfacade & Hhandler & _).
  - reflexivity.
  - reflexivity.
  - rewrite Hfacade, Hhandler. split; reflexivity.
Defined.

Lemma unrecognized_distance_is_400_witness :
  exists msg s',
    create_qdrant_collection Sim.sdk
      {| cc_name := "docs"; cc_vector_size := 384; cc_distance := "Manhattan" |}
      (Sim.start Sim.healthy) =
    (Raise (HTTPException 400 (VStr msg)), s').
Proof.
  destruct (unrecognized_distance_is_400 Sim.sdk
              {| cc_name := "docs"; cc_vector_size := 384;
                 cc_distance := "Manhattan" |}
              (Sim.start Sim.healthy))
    as (msg & s' & _ & Hhandler & _).
  - reflexivity.
  - exists msg, s'. exact Hhandler.
Defined.

Lemma create_collection_docs_witness :
  exists d,
    fst (create_collection Sim.sdk "docs" 384 "Cosine" (Sim.start Sim.healthy)) =
      Ok d /\
    dict_get "success" d = Some (VBool true) /\
    dict_get "distance" d = Some (VStr "Cosine").
Proof.
  destruct (create_collection_docs Sim.sdk (Sim.start Sim.healthy) 7%nat
              (snd (get_client Sim.sdk (Sim.start Sim.healthy))) "Cosine"
              (snd (snd (get_client Sim.sdk (Sim.start Sim.healthy)))))
    as (d & Hrun & Hsuccess & _ & _ & Hdistance).
  - reflexivity.
  - reflexivity.
  - reflexivity.
  - exists d. rewrite Hrun. repeat split; assumption.
Defined.

Lemma quick_status_reports_failure_witness :
  exists d s',
    get_qdrant_status Sim.sdk (Sim.start Sim.unreachable) = (Ok d, s') /\
    dict_get "status" d = Some (VStr "disconnected") /\
    dict_get "error" d = Some (VStr "[Errno 111] Connection refused") /\
    fst (http_response (Ok d)) = 200.
Proof.
  destruct (quick_status_reports_failure Sim.sdk (Sim.start Sim.unreachable)
              (ConnectionError "[Errno 111] Connection refused"))
    as (d & s' & Hrun & Hstatus & Herror & _ & Hhttp).
  - vm_compute. reflexivity.
  - exists d, s'. repeat split; assumption.
Defined.

(** The claim of C6 fails where the exception has an empty text: the
    [error] of the returned dictionary is then the empty string. *)
Lemma quick_status_error_can_be_empty :
  ~ (forall e,
       client_calls_raise Sim.sdk (Sim.start Sim.silent) e ->
       exists d s' msg,
         get_qdrant_status Sim.sdk (Sim.start Sim.silent) = (Ok d, s') /\
         dict_get "status" d = Some (VStr "disconnected") /\
         dict_get "error" d = Some (VStr msg) /\
         msg <> "" /\
         fst (http_response (Ok d)) = 200).
Proof.
  intros H.
  destruct (H (OtherException "ResponseHandlingException" ""))
    as (d & s' & msg & Hrun & _ & Herror & Hmsg & _).
  - vm_compute. reflexivity.
  - vm_compute in Hrun. injection Hrun as <- <-.
    vm_compute in Herror. injection Herror as <-.
    now apply Hmsg.
Qed.

(** C7.  The claim asks for a non-negative [response_time_ms].  On a
    healthy server, when the wall clock reads 1000.0 before the client is
    acquired and 999.0 after the listing call (it was set back by one
    second in between), [check_connection] returns status "connected" with
    [response_time_ms] equal to [round((999.0 - 1000.0) * 1000, 2)], that
    is -1000.0, a negative number. *)
Theorem check_connection_negative_latency :
  clock_readings Sim.sdk (Sim.start Sim.clock_set_back) = Some (1000, 999)%float /\
  exists d s',
    check_connection Sim.sdk Sim.cfg (Sim.start Sim.clock_set_back) = (Ok d, s') /\
    dict_get "status" d = Some (VStr "connected") /\
    dict_get "response_time_ms" d = Some (VFloat (-1000)) /\
    ((-1000) <? 0)%float = true.
Proof.
  split; [ vm_compute; reflexivity | ].
  eexists _, _. split; [ vm_compute; reflexivity | ].
  repeat split.
Qed.

Lemma client_handle_reused_witness :
  snd (snd (run_operations (instrument Sim.sdk) Sim.cfg
              [ CheckConnection; QuickStatus;
                CreateCollection "docs" 384 "Cosine"; ListCollectionsDetailed ]
              (__init__ Sim.cfg, (Sim.healthy, [])))) = [7%nat].
Proof.
  pose proof (proj2 (proj2 (proj2 (proj2
                (client_handle_reused Sim.sdk Sim.cfg))))
                [ CheckConnection; QuickStatus;
                  CreateCollection "docs" 384 "Cosine"; ListCollectionsDetailed ]
                Sim.healthy) as H.
  cbv zeta in H.
  replace (_client (fst (run_operations (instrument Sim.sdk) Sim.cfg
              [ CheckConnection; QuickStatus;
                CreateCollection "docs" 384 "Cosine"; ListCollectionsDetailed ]
              (__init__ Sim.cfg, (Sim.healthy, [])))))
    with (Some 7%nat) in H by (vm_compute; reflexivity).
  exact H.
Defined.

(** * Further properties of the facade and of the handlers *)

Section Lifecycle.

Context {W : Type} (sdk : SDK W) (cfg : QdrantConfig).

Local Abbreviation St := (@St W).

(** *** [get_client] and [close] *)

(** A failure of the constructor is not remembered: [get_client] raises
    it and leaves the instance without a client, so that the next call
    runs the constructor again and, when that one succeeds, stores and
    returns the new client. *)
Theorem get_client_retries_after_failure (s : St) e w1 c w2 :
  _client (fst s) = None ->
  QdrantClient sdk (_connection_params (fst s)) (snd s) = (Raise e, w1) ->
  QdrantClient sdk (_connection_params (fst s)) w1 = (Ok c, w2) ->
  get_client sdk s = (Raise e, (fst s, w1)) /\
  get_client sdk (fst s, w1) =
    (Ok c, ({| _client := Some c;
               _connection_params := _connection_params (fst s) |}, w2)).
Proof.
  intros Hnone Hfail Hok.
  unfold get_client, bind, get_self, call, set_client, ret. cbn [fst snd].
  rewrite Hnone. cbn [fst snd]. rewrite Hfail, Hok. split; reflexivity.
Qed.

(** [close] never raises.  When [client.close()] raises, the exception is
    swallowed and the instance keeps the client: a later [get_client]
    returns that same client without building a new one. *)
Theorem close_failure_keeps_client (s : St) c e w1 :
  _client (fst s) = Some c ->
  sdk_close sdk c (snd s) = (Raise e, w1) ->
  close sdk s = (Ok tt, (fst s, w1)) /\
  get_client sdk (snd (close sdk s)) = (Ok c, (fst s, w1)).
Proof.
  intros Hc Hclose.
  assert (H : close sdk s = (Ok tt, (fst s, w1))).
  { unfold close, bind, get_self, try_except, call, set_client, ret.
    cbn [fst snd]. rewrite Hc, Hclose. reflexivity. }
  split; [ exact H | ].
  rewrite H. cbn [snd]. now apply get_client_cached.
Qed.

(** After a [close] that succeeds the instance holds no client, and the
    next [get_client] runs the constructor: the client it returns and
    stores is the newly built one, not the closed one. *)
Theorem close_then_get_client_rebuilds (s : St) c w1 c' w2 :
  _client (fst s) = Some c ->
  sdk_close sdk c (snd s) = (Ok tt, w1) ->
  QdrantClient sdk (_connection_params (fst s)) w1 = (Ok c', w2) ->
  get_client sdk (snd (close sdk s)) =
    (Ok c', ({| _client := Some c';
                _connection_params := _connection_params (fst s) |}, w2)).
Proof.
  intros Hc Hclose Hnew.
  assert (H : close sdk s =
                (Ok tt, ({| _client := None;
                            _connection_params := _connection_params (fst s) |},
                         w1))).
  { unfold close, bind, get_self, try_except, call, set_client, ret.
    cbn [fst snd]. rewrite Hc, Hclose. reflexivity. }
  rewrite H. unfold get_client, bind, get_self, call, set_client, ret.
  cbn [fst snd _client _connection_params]. rewrite Hnew. reflexivity.
Qed.

(** [close] on an instance that holds no client does nothing: no SDK
    call, no change of the instance. *)
Theorem close_without_client (s : St) :
  _client (fst s) = None -> close sdk s = (Ok tt, s).
Proof.
  intros Hnone. unfold close, bind, get_self, ret. cbn [fst].
  now rewrite Hnone.
Qed.

(** *** The connection parameters *)

Lemma same_params_call {A} p (f : W -> result Exception A * W) :
  preserves (same_params p) (call f).
Proof. intros s H. unfold same_params. now rewrite call_keeps_self. Qed.

Lemma same_params_time p : preserves (same_params p) (time_time sdk).
Proof.
  intros s H. unfold same_params, time_time. destruct (time sdk (snd s)). exact H.
Qed.

Lemma same_params_get_client p : preserves (same_params p) (get_client sdk).
Proof.
  intros s H. unfold same_params in *.
  unfold get_client, bind, get_self, call, set_client, ret. cbn [fst].
  destruct (_client (fst s)).
  - exact H.
  - destruct (QdrantClient sdk _ (snd s)) as [[c | e] w1]; exact H.
Qed.

(** No operation of the facade changes the connection parameters the
    instance was built with: after any sequence of operations they are the
    ones of the configuration, also after clients were built. *)
Theorem connection_params_never_change (os : list operation) (w : W) :
  _connection_params (fst (run_operations sdk cfg os (__init__ cfg, w))) =
  get_connection_params cfg.
Proof.
  apply (run_operations_preserves sdk cfg (same_params (get_connection_params cfg)));
    auto using same_params_get_client, same_params_time, same_params_call.
  reflexivity.
Qed.

End Lifecycle.

Section Reports.

Context {W : Type} (sdk : SDK W) (cfg : QdrantConfig).

Local Abbreviation St := (@St W).

(** *** Sums of counts *)

Lemma float_of_int_raise n e :
  float_of_int n = Raise e -> exists cls msg, e = OtherException cls msg.
Proof.
  unfold float_of_int. destruct (is_infinity _); intros H; [ | discriminate ].
  injection H as <-. eexists _, _. reflexivity.
Qed.

(** What [+] raises is not one of the two classes [check_connection]
    names: it is caught by the last [except] clause. *)
Lemma py_add_raise a b e :
  py_add a b = Raise e -> exists cls msg, e = OtherException cls msg.
Proof.
  destruct a, b; cbn [py_add]; intros H; try discriminate;
    try (injection H as <-; eexists _, _; reflexivity);
    match type of H with
    | context [float_of_int ?n] =>
        destruct (float_of_int n) eqn:Hn; [ discriminate | ];
        injection H as <-; apply (float_of_int_raise _ _ Hn)
    end.
Qed.

Lemma py_sum_from_ints zs : forall a,
  py_sum_from (VInt a) (map VInt zs) = Ok (VInt (a + fold_right Z.add 0 zs)).
Proof.
  induction zs as [| z zs IH]; intros a; cbn [map py_sum_from fold_right py_add].
  - now rewrite Z.add_0_r.
  - rewrite IH. now rewrite Z.add_assoc.
Qed.

Lemma py_sum_from_None l : In VNone l ->
  forall acc, exists cls msg, py_sum_from acc l = Raise (OtherException cls msg).
Proof.
  induction l as [| v l IH]; intros Hin acc; [ contradiction | ].
  cbn [py_sum_from].
  destruct (py_add acc v) as [acc' | e] eqn:Hadd.
  - destruct Hin as [-> | Hin].
    + destruct acc; discriminate.
    + apply IH, Hin.
  - apply py_add_raise in Hadd. destruct Hadd as (cls & msg & ->).
    eexists _, _. reflexivity.
Qed.

Lemma vectors_of_entries cs vs :
  Forall2 (fun c n => count_value (vectors_count c) n) cs vs ->
  map (dict_get_default "vectors_count" (VInt 0)) (map collection_entry cs) =
  map VInt vs.
Proof.
  induction 1 as [| c n cs vs Hc _ IH]; [ reflexivity | ].
  cbn [map]. rewrite IH. f_equal.
  unfold collection_entry, dict_get_default. cbn.
  destruct Hc as [[-> ->] | ->]; reflexivity.
Qed.

Lemma points_of_entries cs ps :
  Forall2 (fun c n => count_value (points_count c) n) cs ps ->
  map (dict_get_default "points_count" (VInt 0)) (map collection_entry cs) =
  map VInt ps.
Proof.
  induction 1 as [| c n cs ps Hc _ IH]; [ reflexivity | ].
  cbn [map]. rewrite IH. f_equal.
  unfold collection_entry, dict_get_default. cbn.
  destruct Hc as [[-> ->] | ->]; reflexivity.
Qed.

Lemma time_time_ok (s : St) : exists t s', time_time sdk s = (Ok t, s').
Proof. unfold time_time. destruct (time sdk (snd s)). eexists _, _. reflexivity. Qed.

(** The [try] block of [check_connection] once both client calls have
    succeeded: what is left are the sums and the update. *)
Lemma check_connection_try_listed (s : St) client s1 r w2 :
  get_client sdk (snd (time_time sdk s)) = (Ok client, s1) ->
  get_collections sdk client (snd s1) = (Ok r, w2) ->
  exists q s',
    check_connection_try sdk cfg s =
    (let collections :=
       match collections r with
       | Some cs => map collection_entry cs
       | None => []
       end in
     match py_sum (map (dict_get_default "vectors_count" (VInt 0)) collections) with
     | Ok total_vectors =>
         match py_sum (map (dict_get_default "points_count" (VInt 0)) collections) with
         | Ok total_points =>
             (Ok (dict_update (initial_result cfg)
                    [ ("status", VStr "connected");
                      ("server_info",
                       VDict [ ("collections_count",
                                VInt (Z.of_nat (List.length collections)));
                               ("total_vectors", total_vectors);
                               ("total_points", total_points) ]);
                      ("collections", VList (map VDict collections));
                      ("response_time_ms", VFloat q) ]), s')
         | Raise e => (Raise e, s')
         end
     | Raise e => (Raise e, s')
     end).
Proof.
  intros Hclient Hlist.
  unfold check_connection_try, bind.
  destruct (time_time_ok s) as (t0 & s0 & Ht0). rewrite Ht0 in *.
  cbn [snd] in Hclient. rewrite Hclient.
  unfold call at 1. rewrite Hlist.
  destruct (time_time_ok (fst s1, w2)) as (t1 & s3 & Ht1). rewrite Ht1.
  exists (round2 ((t1 - t0) * 1000)%float), s3.
  unfold lift, ret. cbv zeta.
  destruct (py_sum _); [ | reflexivity ].
  destruct (py_sum _); reflexivity.
Qed.

(** When both client calls succeed and every listed collection has
    integer (or absent) counts, [check_connection] reports "connected"
    with, in [server_info], the number of listed collections and the sums
    of their vector and point counts, an absent count adding 0. *)
Theorem check_connection_totals (s : St) client s1 r w2 cs vs ps :
  get_client sdk (snd (time_time sdk s)) = (Ok client, s1) ->
  get_collections sdk client (snd s1) = (Ok r, w2) ->
  collections r = Some cs ->
  Forall2 (fun c n => count_value (vectors_count c) n) cs vs ->
  Forall2 (fun c n => count_value (points_count c) n) cs ps ->
  exists d s',
    check_connection sdk cfg s = (Ok d, s') /\
    dict_get "status" d = Some (VStr "connected") /\
    dict_get "server_info" d =
      Some (VDict [ ("collections_count", VInt (Z.of_nat (List.length cs)));
                    ("total_vectors", VInt (fold_right Z.add 0 vs));
                    ("total_points", VInt (fold_right Z.add 0 ps)) ]).
Proof.
  intros Hclient Hlist Hattr Hvs Hps.
  destruct (check_connection_try_listed s client s1 r w2 Hclient Hlist)
    as (q & s' & Htry).
  rewrite Hattr in Htry. cbv zeta in Htry.
  rewrite (vectors_of_entries cs vs Hvs), (points_of_entries cs ps Hps) in Htry.
  unfold py_sum in Htry. rewrite !py_sum_from_ints in Htry.
  rewrite length_map in Htry. cbn [Z.add] in Htry.
  eexists _, s'. split.
  - unfold check_connection. apply try_except_ok. exact Htry.
  - split; reflexivity.
Qed.

(** A listed collection whose [vectors_count] attribute is [None] makes
    the sum raise [TypeError]: although both client calls succeeded,
    [check_connection] reports "disconnected", with an "Unexpected error"
    text, and none of the listed collections. *)
Theorem check_connection_none_count (s : St) client s1 r w2 cs c :
  get_client sdk (snd (time_time sdk s)) = (Ok client, s1) ->
  get_collections sdk client (snd s1) = (Ok r, w2) ->
  collections r = Some cs ->
  In c cs ->
  vectors_count c = Some VNone ->
  exists d s' msg,
    check_connection sdk cfg s = (Ok d, s') /\
    dict_get "status" d = Some (VStr "disconnected") /\
    dict_get "error" d = Some (VStr ("Unexpected error: " ++ msg)) /\
    dict_get "collections" d = Some (VList []).
Proof.
  intros Hclient Hlist Hattr Hin Hnone.
  destruct (check_connection_try_listed s client s1 r w2 Hclient Hlist)
    as (q & s' & Htry).
  rewrite Hattr in Htry. cbv zeta in Htry.
  assert (Hv : In VNone (map (dict_get_default "vectors_count" (VInt 0))
                           (map collection_entry cs))).
  { rewrite map_map. apply in_map_iff. exists c. split; [ | exact Hin ].
    unfold collection_entry, dict_get_default. cbn. now rewrite Hnone. }
  destruct (py_sum_from_None _ Hv (VInt 0)) as (cls & msg & Hsum).
  unfold py_sum in Htry at 1. rewrite Hsum in Htry.
  eexists _, s', msg. split.
  - unfold check_connection. rewrite (try_except_raise _ _ _ _ _ Htry).
    reflexivity.
  - repeat split.
Qed.

(** A listing answer without the attribute [collections] is not an error
    for [check_connection]: it reports "connected" with no collections and
    zero totals. *)
Theorem check_connection_without_collections (s : St) client s1 r w2 :
  get_client sdk (snd (time_time sdk s)) = (Ok client, s1) ->
  get_collections sdk client (snd s1) = (Ok r, w2) ->
  collections r = None ->
  exists d s',
    check_connection sdk cfg s = (Ok d, s') /\
    dict_get "status" d = Some (VStr "connected") /\
    dict_get "collections" d = Some (VList []) /\
    dict_get "server_info" d =
      Some (VDict [ ("collections_count", VInt 0); ("total_vectors", VInt 0);
                    ("total_points", VInt 0) ]).
Proof.
  intros Hclient Hlist Hattr.
  destruct (check_connection_try_listed s client s1 r w2 Hclient Hlist)
    as (q & s' & Htry).
  rewrite Hattr in Htry. cbn in Htry.
  eexists _, s'. split.
  - unfold check_connection. apply try_except_ok. exact Htry.
  - repeat split.
Qed.

(** The handler of GET /qdrant/connection never raises: it returns what
    [check_connection] returns, so its [except] clause, the 500 answer,
    is never taken. *)
Theorem check_qdrant_connection_returns (s : St) :
  exists d s',
    check_connection sdk cfg s = (Ok d, s') /\
    check_qdrant_connection sdk cfg s = (Ok d, s').
Proof.
  destruct (check_connection_cases sdk cfg s) as (d & s' & Hrun & _).
  exists d, s'. split; [ exact Hrun | ].
  unfold check_qdrant_connection, try_except, bind. rewrite Hrun. reflexivity.
Qed.

End Reports.

Section Listings.

Context {W : Type} (sdk : SDK W) (cfg : QdrantConfig).

Local Abbreviation St := (@St W).

Lemma entries_keep_self client cs : forall s : St,
  fst (snd (entries sdk client cs s)) = fst s.
Proof.
  induction cs as [| c rest IH]; intros s; cbn [entries].
  - reflexivity.
  - unfold entry_of at 1.
    destruct (get_collection sdk client (name c) (snd s)) as [r w1].
    specialize (IH (fst s, w1)).
    destruct (entries sdk client rest (fst s, w1)) as [items s2].
    exact IH.
Qed.

Lemma get_client_keeps_params (s : St) :
  _connection_params (fst (snd (get_client sdk s))) = _connection_params (fst s).
Proof. now apply (same_params_get_client sdk (_connection_params (fst s)) s). Qed.

(** What [get_collections_info] returns once the listing is there. *)
Lemma get_collections_info_listed (s : St) client s1 r w2 cs :
  get_client sdk s = (Ok client, s1) ->
  get_collections sdk client (snd s1) = (Ok r, w2) ->
  collections r = Some cs ->
  get_collections_info sdk s =
  (Ok (fst (entries sdk client cs (fst s1, w2))),
   snd (entries sdk client cs (fst s1, w2))).
Proof.
  intros Hclient Hlist Hattr.
  unfold get_collections_info, try_except, bind.
  rewrite Hclient. unfold call. rewrite Hlist.
  unfold lift, collections_attr. rewrite Hattr.
  now rewrite collect_details_entries.
Qed.

(** When the listing succeeds, the handler of GET /qdrant/collections
    answers 200 with one entry per listed collection, failed detail calls
    included, with [total_collections] the number of listed collections
    and with the connection parameters of the instance. *)
Theorem get_qdrant_collections_counts_all (s : St) client s1 r w2 cs :
  get_client sdk s = (Ok client, s1) ->
  get_collections sdk client (snd s1) = (Ok r, w2) ->
  collections r = Some cs ->
  exists items s',
    get_qdrant_collections sdk s =
      (Ok [ ("collections", VList (map VDict items));
            ("total_collections", VInt (Z.of_nat (List.length cs)));
            ("connection_string", _connection_params (fst s)) ], s') /\
    List.length items = List.length cs /\
    fst (http_response (fst (get_qdrant_collections sdk s))) = 200.
Proof.
  intros Hclient Hlist Hattr.
  pose proof (get_collections_info_listed s client s1 r w2 cs Hclient Hlist Hattr)
    as Hinfo.
  assert (Hrun : get_qdrant_collections sdk s =
      (Ok [ ("collections",
             VList (map VDict (fst (entries sdk client cs (fst s1, w2)))));
            ("total_collections", VInt (Z.of_nat (List.length cs)));
            ("connection_string", _connection_params (fst s)) ],
       snd (entries sdk client cs (fst s1, w2)))).
  { unfold get_qdrant_collections, try_except, bind. rewrite Hinfo.
    unfold get_self, ret. cbn [fst snd].
    rewrite entries_keep_self, entries_length. cbn [fst].
    pose proof (get_client_keeps_params s) as Hp. rewrite Hclient in Hp.
    cbn [snd] in Hp. now rewrite Hp. }
  eexists _, _. split; [ exact Hrun | ].
  split; [ apply entries_length | ].
  rewrite Hrun. reflexivity.
Qed.

(** When the client cannot be built, [get_collections_info] raises the
    exception of the constructor and the handler of GET /qdrant/collections
    answers 500; the instance still holds no client. *)
Theorem get_qdrant_collections_without_client (s : St) e s1 :
  get_client sdk s = (Raise e, s1) ->
  get_collections_info sdk s = (Raise e, s1) /\
  get_qdrant_collections sdk s =
    (Raise (HTTPException 500 (VStr ("Failed to get collections: " ++ str e))),
     s1) /\
  _client (fst s1) = None.
Proof.
  intros Hclient.
  assert (H : get_collections_info sdk s = (Raise e, s1)).
  { unfold get_collections_info, try_except, bind. now rewrite Hclient. }
  split; [ exact H | ]. split.
  - unfold get_qdrant_collections, try_except, bind. now rewrite H.
  - revert Hclient.
    unfold get_client, bind, get_self, call, set_client, ret. cbn [fst].
    destruct (_client (fst s)) eqn:Hc; [ discriminate | ].
    destruct (QdrantClient sdk _ (snd s)) as [[c | e1] w1]; [ discriminate | ].
    intros H1. injection H1 as _ <-. exact Hc.
Qed.

(** A listing answer without the attribute [collections] is an error for
    the other two operations: [get_collections_info] raises
    [AttributeError], which the handler of GET /qdrant/collections answers
    with 500, and the quick status reports "disconnected" with the text of
    that error. *)
Theorem listing_without_collections (s : St) client s1 r w2 :
  get_client sdk s = (Ok client, s1) ->
  get_collections sdk client (snd s1) = (Ok r, w2) ->
  collections r = None ->
  exists msg,
    get_collections_info sdk s = (Raise (AttributeError msg), (fst s1, w2)) /\
    fst (http_response (fst (get_qdrant_collections sdk s))) = 500 /\
    exists d,
      get_qdrant_status sdk s = (Ok d, (fst s1, w2)) /\
      dict_get "status" d = Some (VStr "disconnected") /\
      dict_get "error" d = Some (VStr msg).
Proof.
  intros Hclient Hlist Hattr.
  eexists. 
  assert (H : get_collections_info sdk s =
              (Raise (AttributeError
                 "'CollectionsResponse' object has no attribute 'collections'"),
               (fst s1, w2))).
  { unfold get_collections_info, try_except, bind.
    rewrite Hclient. unfold call. rewrite Hlist.
    unfold lift, collections_attr. now rewrite Hattr. }
  split; [ exact H | ]. split.
  - unfold get_qdrant_collections, try_except, bind. now rewrite H.
  - eexists. split.
    + unfold get_qdrant_status, try_except, bind.
      rewrite Hclient. unfold call. rewrite Hlist.
      unfold lift, collections_attr. rewrite Hattr.
      unfold get_self, ret. reflexivity.
    + split; reflexivity.
Qed.

Lemma entry_of_chain_failure client collection (s : St) info w1 c e :
  get_collection sdk client (name collection) (snd s) = (Ok info, w1) ->
  config info = Some c ->
  params_vector c = Raise e ->
  fst (entry_of sdk client collection s) = error_entry collection e.
Proof.
  intros Hcall Hconfig Hchain. unfold entry_of. rewrite Hcall. cbn [fst].
  unfold collection_details. now rewrite Hconfig, Hchain.
Qed.

(** A detail answer that has a [config] on which the attribute chain
    [.params.vector] raises degrades like a failed detail call: the entry
    of that collection is the dictionary with [name] and [error] alone,
    the counts and the status of the answer are dropped. *)
Theorem missing_vector_attribute_degrades (s : St) client s1 r w2 cs
    i collection info w3 c e :
  get_client sdk s = (Ok client, s1) ->
  get_collections sdk client (snd s1) = (Ok r, w2) ->
  collections r = Some cs ->
  nth_error cs i = Some collection ->
  get_collection sdk client (name collection)
    (snd (snd (collect_details sdk client (firstn i cs) [] (fst s1, w2)))) =
    (Ok info, w3) ->
  config info = Some c ->
  params_vector c = Raise e ->
  exists items s',
    get_collections_info sdk s = (Ok items, s') /\
    nth_error items i =
      Some [ ("name", VStr (name collection)); ("error", VStr (str e)) ].
Proof.
  intros Hclient Hlist Hattr Hi Hcall Hconfig Hchain.
  eexists _, _. split.
  - apply (get_collections_info_listed s client s1 r w2 cs Hclient Hlist Hattr).
  - rewrite (entries_nth sdk client cs i _ collection Hi). f_equal.
    rewrite collect_details_entries in Hcall. cbn [snd] in Hcall.
    apply (entry_of_chain_failure _ _ _ info w3 c e Hcall Hconfig Hchain).
Qed.

(** The handler of GET /qdrant/status never raises: it returns either a
    "connected" dictionary, which has no [error] entry, or a
    "disconnected" one whose [error] is a string; the answer is always a
    200. *)
Theorem get_qdrant_status_never_raises (s : St) :
  exists d s',
    get_qdrant_status sdk s = (Ok d, s') /\
    fst (http_response (fst (get_qdrant_status sdk s))) = 200 /\
    ((dict_get "status" d = Some (VStr "connected") /\
      dict_get "error" d = None /\
      dict_get "message" d = Some (VStr "Qdrant is running and accessible"))
     \/
     (dict_get "status" d = Some (VStr "disconnected") /\
      (exists msg, dict_get "error" d = Some (VStr msg)) /\
      dict_get "collections_count" d = None)).
Proof.
  unfold get_qdrant_status, try_except, bind, call, lift, get_self, ret.
  destruct (get_client sdk s) as [[client | e] s1].
  - destruct (get_collections sdk client (snd s1)) as [[r | e] w2].
    + unfold collections_attr. destruct (collections r) as [cs |].
      * eexists _, _. split; [ reflexivity | ]. split; [ reflexivity | ].
        left. repeat split.
      * eexists _, _. split; [ reflexivity | ]. split; [ reflexivity | ].
        right. repeat split. eexists. reflexivity.
    + eexists _, _. split; [ reflexivity | ]. split; [ reflexivity | ].
      right. repeat split. eexists. reflexivity.
  - eexists _, _. split; [ reflexivity | ]. split; [ reflexivity | ].
    right. repeat split. eexists. reflexivity.
Qed.

(** When the listing succeeds, the quick status reports "connected" with
    the number of listed collections, and makes no detail call: the world
    is the one the listing call left. *)
Theorem get_qdrant_status_counts (s : St) client s1 r w2 cs :
  get_client sdk s = (Ok client, s1) ->
  get_collections sdk client (snd s1) = (Ok r, w2) ->
  collections r = Some cs ->
  exists d,
    get_qdrant_status sdk s = (Ok d, (fst s1, w2)) /\
    dict_get "status" d = Some (VStr "connected") /\
    dict_get "collections_count" d = Some (VInt (Z.of_nat (List.length cs))).
Proof.
  intros Hclient Hlist Hattr.
  eexists. split.
  - unfold get_qdrant_status, try_except, bind.
    rewrite Hclient. unfold call. rewrite Hlist.
    unfold lift, collections_attr. rewrite Hattr.
    unfold get_self, ret. reflexivity.
  - split; reflexivity.
Qed.

End Listings.

Section Creation.

Context {W : Type} (sdk : SDK W) (cfg : QdrantConfig).

Local Abbreviation St := (@St W).

(** The two shapes of what [create_collection] returns. *)
Lemma create_collection_result n v d (s : St) :
  exists r s',
    create_collection sdk n v d s = (Ok r, s') /\
    (dict_get "success" r = Some (VBool true)
     \/ exists msg, r = [ ("success", VBool false); ("error", VStr msg) ]).
Proof.
  unfold create_collection, try_except, bind, lift, call, getattr_Distance, ret.
  destruct (get_client sdk s) as [[client | e] s1].
  - destruct (Distance sdk (upper sdk d)) as [metric |].
    + destruct (sdk_create_collection sdk client n _ (snd s1)) as [[u | e] w2];
        eexists _, _; (split; [ reflexivity | ]).
      * now left.
      * right. eexists. reflexivity.
    + eexists _, _. split; [ reflexivity | ]. right. eexists. reflexivity.
  - eexists _, _. split; [ reflexivity | ]. right. eexists. reflexivity.
Qed.

(** The handler of POST /qdrant/collections answers 200 with the success
    dictionary of the facade or 400 with the reported error, whatever the
    request and the server do: its 500 branch is never taken. *)
Theorem create_qdrant_collection_200_or_400 (collection_data : CollectionCreate)
    (s : St) :
  (exists d s',
     create_qdrant_collection sdk collection_data s = (Ok d, s') /\
     dict_get "success" d = Some (VBool true) /\
     fst (http_response (Ok d)) = 200)
  \/
  (exists msg s',
     create_qdrant_collection sdk collection_data s =
       (Raise (HTTPException 400 (VStr msg)), s') /\
     create_collection sdk (cc_name collection_data)
       (cc_vector_size collection_data) (cc_distance collection_data) s =
       (Ok [ ("success", VBool false); ("error", VStr msg) ], s')).
Proof.
  destruct (create_collection_result (cc_name collection_data)
              (cc_vector_size collection_data) (cc_distance collection_data) s)
    as (r & s' & Hrun & [Hsuccess | [msg ->]]).
  - left. exists r, s'. split; [ | split; [ exact Hsuccess | reflexivity ] ].
    unfold create_qdrant_collection, facade.
    unfold try_except at 1. unfold bind at 1.
    rewrite (try_except_ok _ _ _ _ _ Hrun).
    unfold bind, getitem. rewrite Hsuccess. reflexivity.
  - right. exists msg, s'. split; [ | exact Hrun ].
    unfold create_qdrant_collection, facade.
    unfold try_except at 1. unfold bind at 1.
    rewrite (try_except_ok _ _ _ _ _ Hrun). reflexivity.
Qed.

(** An unrecognized metric name is rejected before anything is sent:
    [create_collection] makes no remote create call, it leaves the
    instance and the world as [get_client] left them. *)
Theorem unrecognized_distance_makes_no_call n v d (s : St) :
  Distance sdk (upper sdk d) = None ->
  snd (create_collection sdk n v d s) = snd (get_client sdk s).
Proof.
  intros Hd.
  unfold create_collection, try_except, bind, lift, getattr_Distance, ret.
  rewrite Hd. destruct (get_client sdk s) as [[client | e] s1]; reflexivity.
Qed.

(** The metric name is matched without regard to the case of its ASCII
    letters: two distance strings with the same upper-cased form lead to
    the same remote call, the same final state and the same [success]
    flag; they differ only in the [distance] string echoed back. *)
Theorem create_collection_ignores_case n v d1 d2 (s : St) :
  upper sdk d1 = upper sdk d2 ->
  snd (create_collection sdk n v d1 s) = snd (create_collection sdk n v d2 s) /\
  success_flag (fst (create_collection sdk n v d1 s)) =
  success_flag (fst (create_collection sdk n v d2 s)).
Proof.
  intros Hupper.
  unfold create_collection, try_except, bind, lift, call, getattr_Distance, ret.
  rewrite Hupper.
  destruct (get_client sdk s) as [[client | e] s1].
  - destruct (Distance sdk (upper sdk d2)) as [metric |].
    + destruct (sdk_create_collection sdk client n _ (snd s1)) as [[u | e] w2];
        split; reflexivity.
    + split; reflexivity.
  - split; reflexivity.
Qed.

End Creation.

(** ** The further properties on the simulated servers *)

Lemma get_client_retries_after_failure_witness :
  fst (get_client Cases.flaky_sdk (Sim.start Cases.constructor_fails)) =
    Raise (OtherException "ValueError" "bad url") /\
  fst (get_client Cases.flaky_sdk
         (snd (get_client Cases.flaky_sdk (Sim.start Cases.constructor_fails)))) =
    Ok 3%nat.
Proof.
  destruct (get_client_retries_after_failure Cases.flaky_sdk
              (Sim.start Cases.constructor_fails)
              (OtherException "ValueError" "bad url")
              (snd (QdrantClient Cases.flaky_sdk (get_connection_params Sim.cfg)
                      Cases.constructor_fails))
              3%nat
              (snd (QdrantClient Cases.flaky_sdk (get_connection_params Sim.cfg)
                      (snd (QdrantClient Cases.flaky_sdk
                              (get_connection_params Sim.cfg)
                              Cases.constructor_fails)))))
    as [Hfirst Hsecond].
  - reflexivity.
  - reflexivity.
  - reflexivity.
  - split; [ exact (f_equal fst Hfirst) | exact (f_equal fst Hsecond) ].
Defined.

Lemma close_failure_keeps_client_witness :
  fst (close Cases.flaky_sdk (Cases.holding Sim.healthy)) = Ok tt /\
  fst (get_client Cases.flaky_sdk
         (snd (close Cases.flaky_sdk (Cases.holding Sim.healthy)))) = Ok 3%nat.
Proof.
  destruct (close_failure_keeps_client Cases.flaky_sdk
              (Cases.holding Sim.healthy) 3%nat
              (OtherException "RuntimeError" "close failed") Sim.healthy)
    as [Hclose Hget].
  - reflexivity.
  - reflexivity.
  - rewrite Hget, Hclose. split; reflexivity.
Defined.

Lemma close_then_get_client_rebuilds_witness :
  fst (get_client Sim.sdk (snd (close Sim.sdk (Cases.holding Sim.healthy)))) =
  Ok 7%nat.
Proof.
  rewrite (close_then_get_client_rebuilds Sim.sdk (Cases.holding Sim.healthy)
             3%nat Sim.healthy 7%nat
             (snd (QdrantClient Sim.sdk (get_connection_params Sim.cfg)
                     Sim.healthy))).
  - reflexivity.
  - reflexivity.
  - reflexivity.
  - reflexivity.
Defined.

Lemma check_connection_totals_witness :
  exists d s',
    check_connection Sim.sdk Sim.cfg (Sim.start Cases.counted) = (Ok d, s') /\
    dict_get "server_info" d =
      Some (VDict [ ("collections_count", VInt 3); ("total_vectors", VInt 15);
                    ("total_points", VInt 10) ]).
Proof.
  destruct (check_connection_totals Sim.sdk Sim.cfg (Sim.start Cases.counted)
              3%nat
              (snd (get_client Sim.sdk
                      (snd (time_time Sim.sdk (Sim.start Cases.counted)))))
              {| collections :=
                   Some [ {| name := "a"; vectors_count := Some (VInt 10);
                             points_count := Some (VInt 4) |};
                          {| name := "b"; vectors_count := None;
                             points_count := Some (VInt 6) |};
                          {| name := "c"; vectors_count := Some (VInt 5);
                             points_count := None |} ] |}
              (snd (snd (get_client Sim.sdk
                           (snd (time_time Sim.sdk (Sim.start Cases.counted))))))
              [ {| name := "a"; vectors_count := Some (VInt 10);
                   points_count := Some (VInt 4) |};
                {| name := "b"; vectors_count := None;
                   points_count := Some (VInt 6) |};
                {| name := "c"; vectors_count := Some (VInt 5);
                   points_count := None |} ]
              [ 10; 0; 5 ] [ 4; 6; 0 ])
    as (d & s' & Hrun & _ & Hinfo).
  - reflexivity.
  - reflexivity.
  - reflexivity.
  - repeat constructor; (now right) || (left; now split).
  - repeat constructor; (now right) || (left; now split).
  - exists d, s'. split; [ exact Hrun | exact Hinfo ].
Defined.

Lemma check_connection_none_count_witness :
  exists d s',
    check_connection Sim.sdk Sim.cfg (Sim.start Cases.none_count) = (Ok d, s') /\
    dict_get "status" d = Some (VStr "disconnected") /\
    dict_get "error" d =
      Some (VStr "Unexpected error: unsupported operand type(s) for +: 'int' and 'NoneType'").
Proof.
  destruct (check_connection_none_count Sim.sdk Sim.cfg
              (Sim.start Cases.none_count) 3%nat
              (snd (get_client Sim.sdk
                      (snd (time_time Sim.sdk (Sim.start Cases.none_count)))))
              {| collections :=
                   Some [ {| name := "a"; vectors_count := Some (VInt 10);
                             points_count := Some (VInt 4) |};
                          {| name := "b"; vectors_count := Some VNone;
                             points_count := Some (VInt 6) |} ] |}
              (snd (snd (get_client Sim.sdk
                           (snd (time_time Sim.sdk (Sim.start Cases.none_count))))))
              [ {| name := "a"; vectors_count := Some (VInt 10);
                   points_count := Some (VInt 4) |};
                {| name := "b"; vectors_count := Some VNone;
                   points_count := Some (VInt 6) |} ]
              {| name := "b"; vectors_count := Some VNone;
                 points_count := Some (VInt 6) |})
    as (d & s' & msg & Hrun & Hstatus & Herror & _).
  - reflexivity.
  - reflexivity.
  - reflexivity.
  - right. left. reflexivity.
  - reflexivity.
  - exists d, s'. split; [ exact Hrun | ]. split; [ exact Hstatus | ].
    vm_compute in Hrun. injection Hrun as <- _. reflexivity.
Defined.

Lemma check_connection_without_collections_witness :
  exists d s',
    check_connection Sim.sdk Sim.cfg (Sim.start Cases.no_attribute) = (Ok d, s') /\
    dict_get "status" d = Some (VStr "connected") /\
    dict_get "collections" d = Some (VList []).
Proof.
  destruct (check_connection_without_collections Sim.sdk Sim.cfg
              (Sim.start Cases.no_attribute) 3%nat
              (snd (get_client Sim.sdk
                      (snd (time_time Sim.sdk (Sim.start Cases.no_attribute)))))
              {| collections := None |}
              (snd (snd (get_client Sim.sdk
                           (snd (time_time Sim.sdk (Sim.start Cases.no_attribute)))))))
    as (d & s' & Hrun & Hstatus & Hcollections & _).
  - reflexivity.
  - reflexivity.
  - reflexivity.
  - exists d, s'. repeat split; assumption.
Defined.

Lemma get_qdrant_collections_counts_all_witness :
  exists items s',
    get_qdrant_collections Sim.sdk (Sim.start Sim.healthy) =
      (Ok [ ("collections", VList (map VDict items));
            ("total_collections", VInt 3);
            ("connection_string",
             VDict [ ("host", VStr "localhost"); ("port", VInt 6333) ]) ], s').
Proof.
  destruct (get_qdrant_collections_counts_all Sim.sdk (Sim.start Sim.healthy)
              7%nat
              (snd (get_client Sim.sdk (Sim.start Sim.healthy)))
              {| collections :=
                   Some [ Sim.described "docs"; Sim.described "broken";
                          Sim.described "notes" ] |}
              (snd (snd (get_client Sim.sdk (Sim.start Sim.healthy))))
              [ Sim.described "docs"; Sim.described "broken";
                Sim.described "notes" ])
    as (items & s' & Hrun & _).
  - reflexivity.
  - reflexivity.
  - reflexivity.
  - exists items, s'. exact Hrun.
Defined.

Lemma get_qdrant_collections_without_client_witness :
  fst (http_response
         (fst (get_qdrant_collections Sim.sdk (Sim.start Cases.constructor_fails)))) =
  500.
Proof.
  destruct (get_qdrant_collections_without_client Sim.sdk
              (Sim.start Cases.constructor_fails)
              (OtherException "ValueError" "bad url")
              (Sim.start Cases.constructor_fails))
    as (_ & Hhandler & _).
  - reflexivity.
  - rewrite Hhandler. reflexivity.
Defined.

Lemma listing_without_collections_witness :
  exists msg d s',
    fst (get_collections_info Sim.sdk (Sim.start Cases.no_attribute)) =
      Raise (AttributeError msg) /\
    get_qdrant_status Sim.sdk (Sim.start Cases.no_attribute) = (Ok d, s') /\
    dict_get "status" d = Some (VStr "disconnected").
Proof.
  destruct (listing_without_collections Sim.sdk (Sim.start Cases.no_attribute)
              3%nat
              (snd (get_client Sim.sdk (Sim.start Cases.no_attribute)))
              {| collections := None |}
              (snd (snd (get_client Sim.sdk (Sim.start Cases.no_attribute)))))
    as (msg & Hinfo & _ & d & Hstatus & Hd & _).
  - reflexivity.
  - reflexivity.
  - reflexivity.
  - exists msg, d. eexists. rewrite Hinfo. split; [ reflexivity | ].
    split; [ exact Hstatus | exact Hd ].
Defined.

Lemma missing_vector_attribute_degrades_witness :
  exists items s',
    get_collections_info Sim.sdk (Sim.start Cases.no_vector) = (Ok items, s') /\
    nth_error items 0 =
      Some [ ("name", VStr "docs");
             ("error",
              VStr "'CollectionParams' object has no attribute 'vector'") ].
Proof.
  apply (missing_vector_attribute_degrades Sim.sdk (Sim.start Cases.no_vector)
           3%nat
           (snd (get_client Sim.sdk (Sim.start Cases.no_vector)))
           {| collections := Some [ Sim.described "docs" ] |}
           (snd (snd (get_client Sim.sdk (Sim.start Cases.no_vector))))
           [ Sim.described "docs" ] 0%nat (Sim.described "docs")
           {| info_vectors_count := Some (VInt 2);
              info_points_count := Some (VInt 2);
              config :=
                Some {| params_vector :=
                          Raise (AttributeError
                                   "'CollectionParams' object has no attribute 'vector'") |};
              status := Some (VStr "green") |}
           (snd (snd (get_client Sim.sdk (Sim.start Cases.no_vector))))
           {| params_vector :=
                Raise (AttributeError
                         "'CollectionParams' object has no attribute 'vector'") |}
           (AttributeError "'CollectionParams' object has no attribute 'vector'"));
    reflexivity.
Defined.

Lemma get_qdrant_status_counts_witness :
  exists d s',
    get_qdrant_status Sim.sdk (Sim.start Sim.healthy) = (Ok d, s') /\
    dict_get "collections_count" d = Some (VInt 3).
Proof.
  destruct (get_qdrant_status_counts Sim.sdk (Sim.start Sim.healthy) 7%nat
              (snd (get_client Sim.sdk (Sim.start Sim.healthy)))
              {| collections :=
                   Some [ Sim.described "docs"; Sim.described "broken";
                          Sim.described "notes" ] |}
              (snd (snd (get_client Sim.sdk (Sim.start Sim.healthy))))
              [ Sim.described "docs"; Sim.described "broken";
                Sim.described "notes" ])
    as (d & Hrun & _ & Hcount).
  - reflexivity.
  - reflexivity.
  - reflexivity.
  - exists d. eexists. split; [ exact Hrun | exact Hcount ].
Defined.

Lemma unrecognized_distance_makes_no_call_witness :
  snd (snd (create_collection Sim.sdk "docs" 384 "Manhattan"
              (Sim.start Sim.healthy))) =
  snd (snd (get_client Sim.sdk (Sim.start Sim.healthy))).
Proof.
  rewrite (unrecognized_distance_makes_no_call Sim.sdk "docs" 384 "Manhattan"
             (Sim.start Sim.healthy)).
  - reflexivity.
  - reflexivity.
Defined.

Lemma create_collection_ignores_case_witness :
  success_flag (fst (create_collection Sim.sdk "docs" 384 "cosine"
                       (Sim.start Sim.healthy))) =
  success_flag (fst (create_collection Sim.sdk "docs" 384 "COSINE"
                       (Sim.start Sim.healthy))).
Proof.
  apply (create_collection_ignores_case Sim.sdk "docs" 384 "cosine" "COSINE"
           (Sim.start Sim.healthy)).
  reflexivity.
Defined.
